(** * doc_api_endpoint: a shallow embedding of the document loader and of the
    query handlers

    Sources: [endpoint.py] (the single-file service) and
    [routes/user_document.py] (the same handlers behind an [APIRouter], with a
    loader that skips files it could not read).

    Python values are modelled as a tagged union, a [dict] as an
    insertion-ordered association list, an exception as the [Raise] branch of
    an error monad.  The module-level store [loaded_documents] is passed to
    the handlers explicitly. *)

From Stdlib Require Import ZArith Ascii String List.
From stdpp Require Import base tactics decidable option numbers list strings.

Open Scope string_scope.
Open Scope list_scope.

(** ** Exceptions and results *)

(** The exceptions the modelled code can raise.  [HTTPException] is FastAPI's;
    the others are Python's own (or PyYAML's) and are caught nowhere in the
    sources. *)
Inductive exn : Type :=
  | HTTPException (status_code : Z) (detail : string)
  | KeyError (key : string)
  | TypeError
  | AttributeError
  | IndexError
  | YAMLError.

Inductive result (A : Type) : Type :=
  | Ok (a : A)
  | Raise (e : exn).

Arguments Ok {A} a.
Arguments Raise {A} e.

Definition bind {A B : Type} (r : result A) (k : A -> result B) : result B :=
  match r with
  | Ok a => k a
  | Raise e => Raise e
  end.

Notation "x <- r ;; k" := (bind r (fun x => k))
  (at level 100, r at next level, right associativity).

(** What the HTTP boundary does with a handler's outcome: FastAPI answers an
    [HTTPException] with its own status code; this predicate singles out the
    404 answers. *)
Definition is_http_404 {A : Type} (r : result A) : bool :=
  match r with
  | Raise (HTTPException code _) => bool_decide (code = 404%Z)
  | _ => false
  end.

(** ** Python dictionaries

    A [dict] keeps its keys in insertion order and holds each key once. *)
Section dict.
Context {K V : Type} `{EqDecision K}.

(** [k in d] *)
Fixpoint dict_contains (k : K) (d : list (K * V)) : bool :=
  match d with
  | [] => false
  | (k', _) :: d' => if decide (k = k') then true else dict_contains k d'
  end.

(** [d.get(k)]: the value under [k], if any. *)
Fixpoint dict_get (k : K) (d : list (K * V)) : option V :=
  match d with
  | [] => None
  | (k', v) :: d' => if decide (k = k') then Some v else dict_get k d'
  end.

(** [d[k] = v]: an existing key keeps its position and takes the new value,
    a new key goes last. *)
Fixpoint dict_set (k : K) (v : V) (d : list (K * V)) : list (K * V) :=
  match d with
  | [] => [(k, v)]
  | (k', v') :: d' =>
      if decide (k = k') then (k', v) :: d' else (k', v') :: dict_set k v d'
  end.

(** [list(d.keys())] *)
Definition dict_keys (d : list (K * V)) : list K := map fst d.

(** Storing the pairs of [items] one after the other into [acc]. *)
Definition dict_update (acc items : list (K * V)) : list (K * V) :=
  fold_left (fun d kv => dict_set kv.1 kv.2 d) items acc.

(** A dict display or comprehension: the pairs are stored left to right
    into an empty dict. *)
Definition dict_of_items (items : list (K * V)) : list (K * V) :=
  dict_update [] items.
End dict.

(** [l.insert(i, x)] for [i >= 0]: an index past the end appends. *)
Fixpoint list_insert {A : Type} (i : nat) (x : A) (l : list A) : list A :=
  match i, l with
  | 0, _ => x :: l
  | S _, [] => [x]
  | S i', y :: l' => y :: list_insert i' x l'
  end.

(** The list with [x] put in front of position [i], in the words of the
    specification: what came before position [i], then [x], then the
    rest. *)
Definition inserted_at {A : Type} (i : nat) (x : A) (l : list A) : list A :=
  take i l ++ x :: drop i l.

(** ** Strings *)

Definition newline : ascii := "010"%char.

(** [s.rstrip("\n")]: [s] without its longest suffix of newline characters. *)
Fixpoint rstrip_newline (s : string) : string :=
  match s with
  | EmptyString => EmptyString
  | String c s' =>
      match rstrip_newline s' with
      | EmptyString =>
          if decide (c = newline) then EmptyString else String c EmptyString
      | r => String c r
      end
  end.

(** [s.endswith("\n")] *)
Fixpoint endswith_newline (s : string) : bool :=
  match s with
  | EmptyString => false
  | String c s' =>
      match s' with
      | EmptyString => bool_decide (c = newline)
      | _ => endswith_newline s'
      end
  end.

(** [n] newline characters. *)
Fixpoint newlines (n : nat) : string :=
  match n with
  | 0 => EmptyString
  | S n' => String newline (newlines n')
  end.

(** [sub in s] for two strings. *)
Fixpoint str_contains (sub s : string) : bool :=
  String.prefix sub s ||
  match s with
  | EmptyString => false
  | String _ s' => str_contains sub s'
  end.

(** [posixpath.basename]: what follows the last slash.  [cur] is the part
    after the last slash met so far. *)
Fixpoint basename_from (cur p : string) : string :=
  match p with
  | EmptyString => cur
  | String c p' =>
      if decide (c = "/"%char) then basename_from p' p' else basename_from cur p'
  end.

Definition basename (p : string) : string := basename_from p p.

(** [s.split(sep)] for a one-character separator. *)
Fixpoint split (sep : ascii) (s : string) : list string :=
  match s with
  | EmptyString => [EmptyString]
  | String c s' =>
      if decide (c = sep) then EmptyString :: split sep s'
      else match split sep s' with
           | [] => [String c EmptyString]
           | w :: ws => String c w :: ws
           end
  end.

(** [l[0]] *)
Definition item0 {A : Type} (l : list A) : result A :=
  match l with
  | x :: _ => Ok x
  | [] => Raise IndexError
  end.

(** The document name of a file:
    [os.path.basename(input_file).split(".")[0]]. *)
Definition document_name_of (input_file : string) : result string :=
  item0 (split "."%char (basename input_file)).

(** ** Parsed YAML

    [yaml.safe_load] builds mappings, sequences and scalars.  A scalar is
    [None], a [str], or a value of some other type ([bool], [int], [float],
    a date ...), which the code never looks into: the type [Atom] of these
    is left open, two of its values being equal when Python's [==] holds of
    them.  A mapping's keys are scalars.

    The values of [Atom] are all that is neither a [dict], a [list], a [str]
    nor [None].  Besides the scalars these are the tuples and sets that
    [yaml.safe_load] builds for [!!omap], [!!pairs] and [!!set]; such a value
    may hold strings of its own, which [all_strings] below reads through a
    function given with [Atom]. *)
Inductive pyscalar (Atom : Type) : Type :=
  | PyNone
  | PyStr (s : string)
  | PyOther (a : Atom).

Arguments PyNone {Atom}.
Arguments PyStr {Atom} s.
Arguments PyOther {Atom} a.

#[warnings="-register-all"]
Inductive pyvalue (Atom : Type) : Type :=
  | PyScalar (x : pyscalar Atom)
  | PyList (l : list (pyvalue Atom))
  | PyDict (items : list (pyscalar Atom * pyvalue Atom)).

Arguments PyScalar {Atom} x.
Arguments PyList {Atom} l.
Arguments PyDict {Atom} items.

(** Induction on a parsed value, with the hypothesis for every element of a
    list and every value of a mapping. *)
Section pyvalue_induction.
Context {Atom : Type}.
Variable P : pyvalue Atom -> Prop.
Hypothesis Hscalar : forall x, P (PyScalar x).
Hypothesis Hlist : forall l, Forall P l -> P (PyList l).
Hypothesis Hdict :
  forall items, Forall (fun kv => P kv.2) items -> P (PyDict items).

Fixpoint pyvalue_induction (v : pyvalue Atom) : P v :=
  match v with
  | PyScalar x => Hscalar x
  | PyList l =>
      Hlist l
        ((fix all (l : list (pyvalue Atom)) : Forall P l :=
            match l with
            | [] => List.Forall_nil P
            | v' :: l' =>
                List.Forall_cons P v' l' (pyvalue_induction v') (all l')
            end) l)
  | PyDict items =>
      Hdict items
        ((fix all (items : list (pyscalar Atom * pyvalue Atom))
            : Forall (fun kv => P kv.2) items :=
            match items with
            | [] => List.Forall_nil _
            | kv :: items' =>
                List.Forall_cons (fun kv => P kv.2) kv items'
                  (pyvalue_induction kv.2) (all items')
            end) items)
  end.
End pyvalue_induction.

#[global] Instance pyscalar_eq_dec {Atom : Type} `{EqDecision Atom} :
  EqDecision (pyscalar Atom).
Proof. solve_decision. Defined.

(** What reading and parsing a file gives: the parsed value, or
    [yaml.YAMLError] for a malformed file. *)
Inductive parse_outcome (Atom : Type) : Type :=
  | Parsed (v : pyvalue Atom)
  | Malformed.

Arguments Parsed {Atom} v.
Arguments Malformed {Atom}.

(** ** The newline-trimming transform ([endpoint.py], [transform_data]) *)
Section transform.
Context {Atom : Type} `{EqDecision Atom}.

(** The two scalar branches of [transform_data]: a [str] loses its trailing
    newlines, any other value is returned as it is (the notice the [else]
    branch prints is not part of the result). *)
Definition transform_scalar (data : pyscalar Atom) : pyscalar Atom :=
  match data with
  | PyStr s => PyStr (rstrip_newline s)
  | _ => data
  end.

(** [transform_data]: a [dict] is rebuilt by a comprehension over its items,
    key and value both transformed (a key is a scalar, so the recursive call
    on it takes a scalar branch); a [list] is rebuilt element by element. *)
Fixpoint transform_data (data : pyvalue Atom) : pyvalue Atom :=
  match data with
  | PyDict items =>
      PyDict (dict_of_items
                (map (fun '(key, value) =>
                        (transform_scalar key, transform_data value)) items))
  | PyList l => PyList (map transform_data l)
  | PyScalar x => PyScalar (transform_scalar x)
  end.

(** The pair the comprehension of [transform_data] builds from one item. *)
Definition transform_item (kv : pyscalar Atom * pyvalue Atom)
  : pyscalar Atom * pyvalue Atom :=
  (transform_scalar kv.1, transform_data kv.2).

(** No [str] that is a key or a value of a [dict] or an element of a [list],
    at any depth of dicts and lists, ends with a newline.  A value of [Atom]
    is not looked into. *)
Definition scalar_trimmed (x : pyscalar Atom) : bool :=
  match x with
  | PyStr s => negb (endswith_newline s)
  | _ => true
  end.

Fixpoint no_trailing_newline (v : pyvalue Atom) : bool :=
  match v with
  | PyScalar x => scalar_trimmed x
  | PyList l => forallb no_trailing_newline l
  | PyDict items =>
      forallb (fun '(key, value) =>
                 scalar_trimmed key && no_trailing_newline value) items
  end.

Definition is_str (x : pyscalar Atom) : bool :=
  match x with
  | PyStr _ => true
  | _ => false
  end.

(** Every string of a structure: the keys and values of its dicts and the
    elements of its lists, at any depth, and the strings the values of
    [Atom] hold, as [held] gives them. *)
Definition scalar_strings (held : Atom -> list string) (x : pyscalar Atom)
  : list string :=
  match x with
  | PyNone => []
  | PyStr s => [s]
  | PyOther a => held a
  end.

Fixpoint all_strings (held : Atom -> list string) (v : pyvalue Atom)
  : list string :=
  match v with
  | PyScalar x => scalar_strings held x
  | PyList l => concat (map (all_strings held) l)
  | PyDict items =>
      concat (map (fun '(key, value) =>
                     scalar_strings held key ++ all_strings held value) items)
  end.

(** The strings met without looking into a value of [Atom]. *)
Definition strings_in_lists_and_dicts (v : pyvalue Atom) : list string :=
  all_strings (fun _ => []) v.

(** A structure and its copy with the trailing newlines trimmed, in the words
    of the specification and with no reference to [transform_data]: a string
    loses a run of newlines at its end and does not end with a newline any
    more; [None] and a value of [Atom] are the same in the copy; a list is
    copied element by element; a dict is built from the copies of its pairs,
    key and value, stored in their order. *)
Inductive trimmed_scalar : pyscalar Atom -> pyscalar Atom -> Prop :=
  | trimmed_str (s s' : string) (n : nat) :
      s = s' +:+ newlines n -> endswith_newline s' = false ->
      trimmed_scalar (PyStr s) (PyStr s')
  | trimmed_none : trimmed_scalar PyNone PyNone
  | trimmed_other (a : Atom) : trimmed_scalar (PyOther a) (PyOther a).

#[warnings="-register-all"]
Inductive trimmed_copy : pyvalue Atom -> pyvalue Atom -> Prop :=
  | trimmed_copy_scalar (x x' : pyscalar Atom) :
      trimmed_scalar x x' -> trimmed_copy (PyScalar x) (PyScalar x')
  | trimmed_copy_list (l l' : list (pyvalue Atom)) :
      Forall2 trimmed_copy l l' -> trimmed_copy (PyList l) (PyList l')
  | trimmed_copy_dict (items pairs : list (pyscalar Atom * pyvalue Atom)) :
      Forall2 (fun kv kv' =>
                 trimmed_scalar kv.1 kv'.1 /\ trimmed_copy kv.2 kv'.2)
        items pairs ->
      trimmed_copy (PyDict items) (PyDict (dict_of_items pairs)).

(** What every Python [dict] satisfies: at each depth the keys of a mapping
    are pairwise distinct. *)
Fixpoint keys_distinct (v : pyvalue Atom) : bool :=
  match v with
  | PyScalar _ => true
  | PyList l => forallb keys_distinct l
  | PyDict items =>
      bool_decide (NoDup (dict_keys items)) &&
      forallb (fun '(_, value) => keys_distinct value) items
  end.
End transform.

(** ** The query handlers

    [check_document_loaded] and the five handlers have the same text in
    [endpoint.py] and in [routes/user_document.py]; they are modelled once.
    [loaded_documents] maps a document name to its content. *)
Section handlers.
Context {Atom : Type} `{EqDecision Atom}.

(** [content[key]] for a [str] key: only a [dict] can be subscripted by a
    string. *)
Definition getitem (content : pyvalue Atom) (key : string)
  : result (pyvalue Atom) :=
  match content with
  | PyDict items =>
      match dict_get (PyStr key) items with
      | Some v => Ok v
      | None => Raise (KeyError key)
      end
  | _ => Raise TypeError
  end.

(** [key in content] for a [str] key: key membership in a [dict], element
    membership in a [list], substring test in a [str]; the other scalars
    are not iterable (a whole document that is a tuple or a set is not told
    apart from them). *)
Definition contains (key : string) (content : pyvalue Atom) : result bool :=
  match content with
  | PyDict items => Ok (dict_contains (PyStr key) items)
  | PyList l =>
      Ok (existsb (fun e => match e with
                            | PyScalar (PyStr s) => bool_decide (s = key)
                            | _ => false
                            end) l)
  | PyScalar (PyStr s) => Ok (str_contains key s)
  | PyScalar _ => Raise TypeError
  end.

(** [list(content.keys())]: only a [dict] has [keys]. *)
Definition keys (content : pyvalue Atom) : result (list (pyscalar Atom)) :=
  match content with
  | PyDict items => Ok (dict_keys items)
  | _ => Raise AttributeError
  end.

Definition check_document_loaded (document_name : string)
    (loaded_documents : list (string * pyvalue Atom))
  : result (pyvalue Atom) :=
  if dict_contains document_name loaded_documents then
    match dict_get document_name loaded_documents with
    | Some content => Ok content
    | None => Raise (KeyError document_name)
    end
  else
    Raise (HTTPException 404
             ("Document " +:+ document_name +:+ ".yml not found")).

(** [GET /v1/{document}] *)
Definition get_document_content (document : string)
    (loaded_documents : list (string * pyvalue Atom))
  : result (pyvalue Atom) :=
  document_content <- check_document_loaded document loaded_documents ;;
  Ok document_content.

(** [GET /v1/{document}/sections] *)
Definition get_document_content_sections (document : string)
    (loaded_documents : list (string * pyvalue Atom))
  : result (list (pyscalar Atom)) :=
  document_content <- check_document_loaded document loaded_documents ;;
  sections <- keys document_content ;;
  let sections := list_insert 6 (PyStr "metadata") sections in
  let sections := list_insert 10 (PyStr "document_control") sections in
  Ok sections.

(** [GET /v1/{document}/metadata] *)
Definition get_document_content_metadata (document : string)
    (loaded_documents : list (string * pyvalue Atom))
  : result (pyvalue Atom) :=
  content <- check_document_loaded document loaded_documents ;;
  document_type <- getitem content "type" ;;
  document_no <- getitem content "document_no" ;;
  effective_date <- getitem content "effective_date" ;;
  document_rev <- getitem content "document_rev" ;;
  title <- getitem content "title" ;;
  document_code <- getitem content "document_code" ;;
  Ok (PyDict (dict_of_items
                [ (PyStr "document_type", document_type);
                  (PyStr "document_no", document_no);
                  (PyStr "effective_date", effective_date);
                  (PyStr "document_rev", document_rev);
                  (PyStr "title", title);
                  (PyStr "document_code", document_code) ])).

(** [GET /v1/{document}/document_control] *)
Definition get_document_document_control (document : string)
    (loaded_documents : list (string * pyvalue Atom))
  : result (pyvalue Atom) :=
  content <- check_document_loaded document loaded_documents ;;
  revision_history <- getitem content "revision_history" ;;
  prepared_by <- getitem content "prepared_by" ;;
  reviewed_approved_by <- getitem content "reviewed_approved_by" ;;
  Ok (PyDict (dict_of_items
                [ (PyStr "revision_history", revision_history);
                  (PyStr "prepared_by", prepared_by);
                  (PyStr "reviewed_approved_by", reviewed_approved_by) ])).

(** [GET /v1/{document}/{section}] *)
Definition get_document_content_section (document section : string)
    (loaded_documents : list (string * pyvalue Atom))
  : result (pyvalue Atom) :=
  content <- check_document_loaded document loaded_documents ;;
  present <- contains section content ;;
  if negb present then
    Raise (HTTPException 404
             ("Section '" +:+ section +:+ "' doesn't exist in "
                +:+ document +:+ ".yml"))
  else getitem content section.

(** The source fields of the metadata view, in the order the handler reads
    them. *)
Definition metadata_source_fields : list string :=
  ["type"; "document_no"; "effective_date"; "document_rev"; "title";
   "document_code"].

(** [GET /v1/documents] in [endpoint.py], [GET /] in
    [routes/user_document.py]: [list(loaded_documents.keys())]. *)
Definition get_document_list
    (loaded_documents : list (string * pyvalue Atom)) : list string :=
  dict_keys loaded_documents.

(** The source fields of the document-control view, in the order the handler
    reads them. *)
Definition document_control_source_fields : list string :=
  ["revision_history"; "prepared_by"; "reviewed_approved_by"].

(** The keys the [TypedDict] declarations of [endpoint.py] require
    ([HeaderFooterItems] and [DocumentType], both total). *)
Definition HeaderFooterItems_fields : list string :=
  ["document_type"; "document_no"; "document_code"; "effective_date";
   "document_rev"; "title"].

Definition DocumentType_fields : list string :=
  ["document_type"; "document_no"; "effective_date"; "document_rev"; "title";
   "document_code"; "revision_history"; "prepared_by";
   "reviewed_approved_by"; "purpose"; "scope"; "responsibility";
   "definition"; "reference"; "attachment"; "procedure"].

(** A mapping has the keys a total [TypedDict] declares, in any order. *)
Definition has_fields (fields : list string)
    (items : list (pyscalar Atom * pyvalue Atom)) : Prop :=
  dict_keys items ≡ₚ map PyStr fields.
End handlers.

(** The first of the six source fields that a mapping lacks, in the order the
    handler reads them. *)
Definition first_missing_field {Atom : Type} `{EqDecision Atom}
    (items : list (pyscalar Atom * pyvalue Atom)) : option string :=
  find (fun field => negb (dict_contains (PyStr field) items))
    metadata_source_fields.

(** ** The load phase

    Two things come from outside: [glob], the files matching a pattern, in
    the order [glob.glob] lists them, and [safe_load], what opening a file
    and running [yaml.safe_load] on it gives.  [ThreadPoolExecutor.map] hands
    back the results in the order of its inputs, whatever the order in which
    the workers finish, and re-raises a worker's exception when the loop
    reaches its result; [load_document] reads files and writes nothing, so
    the pool is modelled by [map].

    The listed files are taken to be readable: [safe_load] answers with the
    parsed value or with [yaml.YAMLError].  A file that cannot be opened or
    decoded, and a file whose anchors build a value that contains itself,
    have no counterpart here. *)

(** *** [endpoint.py] *)
Module Endpoint.
Section loader.
Context {Atom : Type} `{EqDecision Atom}.
Variable glob : string -> list string.
Variable safe_load : string -> parse_outcome Atom.

Definition read_yaml_file (input_file : string) : result (pyvalue Atom) :=
  example_content <- match safe_load input_file with
                     | Parsed v => Ok v
                     | Malformed => Raise YAMLError
                     end ;;
  let example_content := transform_data example_content in
  Ok example_content.

Definition load_document (input_file : string)
  : result (string * pyvalue Atom) :=
  document_content <- read_yaml_file input_file ;;
  document_name <- document_name_of input_file ;;
  Ok (document_name, document_content).

(** [input_file] is loaded as the entry [e]. *)
Definition loads_as (input_file : string) (e : string * pyvalue Atom) : Prop :=
  load_document input_file = Ok e.

(** The loop [for document_name, content in results]. *)
Fixpoint store_results (results : list (result (string * pyvalue Atom)))
    (loaded_documents : list (string * pyvalue Atom))
  : result (list (string * pyvalue Atom)) :=
  match results with
  | [] => Ok loaded_documents
  | r :: results' =>
      entry <- r ;;
      store_results results' (dict_set entry.1 entry.2 loaded_documents)
  end.

(** The module-level store. *)
Definition loaded_documents : result (list (string * pyvalue Atom)) :=
  let document_names := glob "yml/*.yml" in
  store_results (map load_document document_names) [].
End loader.
End Endpoint.

(** *** [routes/user_document.py]

    [read_yaml_file] is imported from [documentHandler], which is not among
    the sources: the loader is modelled over any such function. *)
Module UserDocument.
Section loader.
Context {Atom : Type} `{EqDecision Atom}.
Variable glob : string -> list string.
Variable read_yaml_file : string -> result (pyvalue Atom).

(** [document_content is None] *)
Definition is_none (v : pyvalue Atom) : bool :=
  match v with
  | PyScalar PyNone => true
  | _ => false
  end.

Definition load_document (input_file : string)
  : result (option (string * pyvalue Atom)) :=
  document_content <- read_yaml_file input_file ;;
  if is_none document_content then Ok None
  else
    document_name <- document_name_of input_file ;;
    Ok (Some (document_name, document_content)).

(** [input_file] is loaded as the entry [oe], or skipped when [oe] is
    [None]. *)
Definition loads_as (input_file : string)
    (oe : option (string * pyvalue Atom)) : Prop :=
  load_document input_file = Ok oe.

(** The loop [for result in results], with its [None] test. *)
Fixpoint store_results
    (results : list (result (option (string * pyvalue Atom))))
    (loaded_documents : list (string * pyvalue Atom))
  : result (list (string * pyvalue Atom)) :=
  match results with
  | [] => Ok loaded_documents
  | r :: results' =>
      result <- r ;;
      match result with
      | Some (document_name, content) =>
          store_results results'
            (dict_set document_name content loaded_documents)
      | None => store_results results' loaded_documents
      end
  end.

Definition populate_loaded_documents (directory : string)
  : result (list (string * pyvalue Atom)) :=
  let document_names := glob (directory +:+ "/*.yml") in
  store_results (map load_document document_names) [].

Definition loaded_documents : result (list (string * pyvalue Atom)) :=
  populate_loaded_documents "yml".
End loader.
End UserDocument.

(** *** [documentHandler] *)
Module DocumentHandler.
Section reader.
Context {Atom : Type} `{EqDecision Atom}.
Variable safe_load : string -> parse_outcome Atom.

(** Modelled from the spec: [documentHandler.read_yaml_file] is not among
    the sources.  By the spec a file is deserialized and its strings are
    trimmed, and a malformed file is skipped with a warning instead of
    failing the load; [UserDocument.load_document] skips a file whose
    content is [None]. *)
Definition read_yaml_file (input_file : string) : result (pyvalue Atom) :=
  match safe_load input_file with
  | Parsed v => Ok (transform_data v)
  | Malformed => Ok (PyScalar PyNone)
  end.
End reader.
End DocumentHandler.

(** ** A sample directory

    A directory after the scenario of the specification: [policy_a.yml], a
    second file of the same document name, and a file that does not parse.
    The other scalars are integers. *)
Module Sample.
Definition str (s : string) : pyvalue Z := PyScalar (PyStr s).

Definition policy_a : pyvalue Z :=
  PyDict [ (PyStr "type", str "SOP");
           (PyStr "document_no", str "001");
           (PyStr "title", str "Access Control");
           (PyStr "document_code", str "AC-1");
           (PyStr "effective_date", str "2024-01-01");
           (PyStr "document_rev", PyScalar (PyOther 1%Z));
           (PyStr "purpose",
             PyList [str ("control access" +:+ String newline "")]);
           (PyStr "revision_history", PyList []);
           (PyStr "prepared_by", PyList []);
           (PyStr "reviewed_approved_by", PyList []) ].

Definition policy_a_draft : pyvalue Z :=
  PyDict [ (PyStr "title", str "Draft");
           (PyStr (String "k" (String newline "")), str "v") ].

Definition glob (pattern : string) : list string :=
  if decide (pattern = "yml/*.yml")
  then ["yml/policy_a.yml"; "yml/policy_a.draft.yml"]
  else [].

Definition glob_with_malformed (pattern : string) : list string :=
  if decide (pattern = "yml/*.yml")
  then ["yml/policy_a.yml"; "yml/broken.yml"]
  else [].

Definition safe_load (input_file : string) : parse_outcome Z :=
  if decide (input_file = "yml/policy_a.yml") then Parsed policy_a
  else if decide (input_file = "yml/policy_a.draft.yml")
       then Parsed policy_a_draft
       else Malformed.

(** The store after loading [policy_a.yml] alone. *)
Definition store : list (string * pyvalue Z) :=
  [("policy_a", transform_data policy_a)].

(** A store whose only document lacks most of the metadata fields. *)
Definition draft_store : list (string * pyvalue Z) :=
  [("policy_a", transform_data policy_a_draft)].
End Sample.

(** ** A sample with an ordered mapping

    The file [pairs.yml] holds an [!!omap] with the one pair of "a" and "x"
    followed by a newline: [yaml.safe_load] gives a list of one tuple, and
    a tuple is neither a [dict], a [list] nor a [str]. *)
Module SampleOmap.
Inductive other : Type :=
  | Int (n : Z)
  | Tuple (elements : list string).

#[global] Instance other_eq_dec : EqDecision other.
Proof. solve_decision. Defined.

(** The strings a value holds. *)
Definition held (a : other) : list string :=
  match a with
  | Int _ => []
  | Tuple elements => elements
  end.

Definition pairs : pyvalue other :=
  PyList [PyScalar (PyOther (Tuple ["a"; String "x" (String newline "")]))].

Definition glob (pattern : string) : list string :=
  if decide (pattern = "yml/*.yml") then ["yml/pairs.yml"] else [].

Definition safe_load (input_file : string) : parse_outcome other :=
  if decide (input_file = "yml/pairs.yml") then Parsed pairs else Malformed.
End SampleOmap.

(** * Properties *)

(** ** Dictionaries *)
Section dict_facts.
Context {K V : Type} `{EqDecision K}.
Implicit Types (k : K) (v : V) (d items : list (K * V)).

Lemma dict_contains_get k d :
  dict_contains k d = true <-> is_Some (dict_get k d).
Proof.
  induction d as [|[k' v'] d IH]; simpl.
  - split; [discriminate | intros [? ?]; discriminate].
  - destruct (decide (k = k')); [|exact IH].
    split; eauto.
Qed.

Lemma dict_contains_false k d :
  dict_contains k d = false <-> dict_get k d = None.
Proof.
  induction d as [|[k' v'] d IH]; simpl; [done|].
  destruct (decide (k = k')); [|exact IH].
  split; discriminate.
Qed.

Lemma dict_contains_keys k d :
  dict_contains k d = true <-> k ∈ dict_keys d.
Proof.
  unfold dict_keys.
  induction d as [|[k' v'] d IH]; simpl.
  - split; [discriminate | intros Hin; inversion Hin].
  - rewrite elem_of_cons. destruct (decide (k = k')); [tauto|].
    rewrite IH. tauto.
Qed.

Lemma dict_get_elem_of k v d : dict_get k d = Some v -> (k, v) ∈ d.
Proof.
  induction d as [|[k' v'] d IH]; simpl; [discriminate|].
  destruct (decide (k = k')) as [->|]; intros Hget.
  - injection Hget as ->. left.
  - right. auto.
Qed.

Lemma dict_get_app k d1 d2 :
  dict_get k (d1 ++ d2) =
    match dict_get k d1 with
    | Some v => Some v
    | None => dict_get k d2
    end.
Proof.
  induction d1 as [|[k' v'] d1 IH]; simpl; [done|].
  destruct (decide (k = k')); [done | exact IH].
Qed.

Lemma dict_get_set_eq k v d : dict_get k (dict_set k v d) = Some v.
Proof.
  induction d as [|[k' v'] d IH]; simpl.
  - by rewrite decide_True.
  - destruct (decide (k = k')) as [->|Hne]; simpl.
    + by rewrite decide_True.
    + by rewrite decide_False.
Qed.

Lemma dict_get_set_ne k k' v d :
  k ≠ k' -> dict_get k (dict_set k' v d) = dict_get k d.
Proof.
  intros Hne. induction d as [|[k'' v''] d IH]; simpl.
  - by rewrite decide_False.
  - destruct (decide (k' = k'')) as [->|]; simpl.
    + by rewrite !decide_False.
    + destruct (decide (k = k'')); [done | exact IH].
Qed.

(** A new key goes last. *)
Lemma dict_set_fresh k v d :
  k ∉ dict_keys d -> dict_set k v d = d ++ [(k, v)].
Proof.
  unfold dict_keys.
  induction d as [|[k' v'] d IH]; simpl; [done|].
  rewrite not_elem_of_cons. intros [Hne Hnotin].
  rewrite decide_False by done. by rewrite IH.
Qed.

(** A pair of the dict after [d[k] = v] is the new pair or an old one. *)
Lemma elem_of_dict_set kv k v d :
  kv ∈ dict_set k v d -> kv = (k, v) \/ kv ∈ d.
Proof.
  induction d as [|[k' v'] d IH]; simpl.
  - rewrite list_elem_of_singleton. auto.
  - destruct (decide (k = k')) as [->|]; rewrite !elem_of_cons.
    + tauto.
    + intros [->|Hin]; [tauto|]. destruct (IH Hin); tauto.
Qed.

Lemma dict_keys_set k v d :
  dict_keys (dict_set k v d) =
    if dict_contains k d then dict_keys d else dict_keys d ++ [k].
Proof.
  unfold dict_keys.
  induction d as [|[k' v'] d IH]; simpl; [done|].
  destruct (decide (k = k')); simpl; [done|].
  rewrite IH. by destruct (dict_contains k d).
Qed.

Lemma dict_set_NoDup k v d :
  NoDup (dict_keys d) -> NoDup (dict_keys (dict_set k v d)).
Proof.
  intros Hnd. rewrite dict_keys_set.
  destruct (dict_contains k d) eqn:Hc; [done|].
  apply NoDup_app. split_and!; [done | | apply NoDup_singleton].
  intros k' Hin ->%list_elem_of_singleton.
  apply dict_contains_keys in Hin. congruence.
Qed.

Lemma dict_update_NoDup acc items :
  NoDup (dict_keys acc) -> NoDup (dict_keys (dict_update acc items)).
Proof.
  unfold dict_update. revert acc.
  induction items as [|[k v] items IH]; intros acc Hnd; simpl; [done|].
  apply IH, dict_set_NoDup, Hnd.
Qed.

Lemma dict_of_items_NoDup items : NoDup (dict_keys (dict_of_items items)).
Proof. apply dict_update_NoDup, NoDup_nil_2. Qed.

Lemma elem_of_dict_update kv acc items :
  kv ∈ dict_update acc items -> kv ∈ acc \/ kv ∈ items.
Proof.
  unfold dict_update. revert acc.
  induction items as [|[k v] items IH]; intros acc; simpl; [auto|].
  intros Hin. rewrite elem_of_cons.
  destruct (IH _ Hin) as [Hset|]; [|tauto].
  destruct (elem_of_dict_set _ _ _ _ Hset); tauto.
Qed.

Lemma elem_of_dict_of_items kv items :
  kv ∈ dict_of_items items -> kv ∈ items.
Proof.
  intros Hin. destruct (elem_of_dict_update _ _ _ Hin) as [Hnil|]; [|done].
  inversion Hnil.
Qed.

(** Pairs with pairwise distinct keys, none of them in [acc], are appended
    in their order. *)
Lemma dict_update_fresh acc items :
  NoDup (dict_keys items) ->
  (forall k, k ∈ dict_keys items -> k ∉ dict_keys acc) ->
  dict_update acc items = acc ++ items.
Proof.
  unfold dict_update. revert acc.
  induction items as [|[k v] items IH]; intros acc Hnd Hfresh; simpl.
  - by rewrite app_nil_r.
  - apply NoDup_cons in Hnd as [Hk Hnd].
    rewrite dict_set_fresh by (apply Hfresh; left).
    rewrite IH; [by rewrite <- app_assoc | done |].
    intros k' Hin. unfold dict_keys. rewrite map_app, elem_of_app. simpl.
    rewrite list_elem_of_singleton.
    intros [Hacc| ->]; [|done].
    apply (Hfresh k'); [by right | done].
Qed.

Lemma dict_of_items_NoDup_id items :
  NoDup (dict_keys items) -> dict_of_items items = items.
Proof.
  intros Hnd. unfold dict_of_items.
  rewrite dict_update_fresh; [done | done |].
  intros k _ Hin. inversion Hin.
Qed.

(** Looking a key up after a run of stores: the last pair stored under the
    key, else what the dict held before. *)
Lemma dict_get_update k acc items :
  dict_get k (dict_update acc items) =
    match dict_get k (rev items) with
    | Some v => Some v
    | None => dict_get k acc
    end.
Proof.
  unfold dict_update. revert acc.
  induction items as [|[k' v'] items IH]; intros acc; simpl; [done|].
  rewrite IH, dict_get_app. simpl.
  destruct (dict_get k (rev items)); [done|].
  destruct (decide (k = k')) as [->|Hne].
  - apply dict_get_set_eq.
  - by apply dict_get_set_ne.
Qed.

Lemma dict_get_of_items k items :
  dict_get k (dict_of_items items) = dict_get k (rev items).
Proof.
  unfold dict_of_items. rewrite dict_get_update.
  by destruct (dict_get k (rev items)).
Qed.
End dict_facts.

(** ** Strings *)

Lemma rstrip_newline_not_endswith s :
  endswith_newline (rstrip_newline s) = false.
Proof.
  induction s as [|c s IH]; simpl; [done|].
  destruct (rstrip_newline s) as [|c' r] eqn:Hr.
  - destruct (decide (c = newline)) as [|Hne]; simpl; [done|].
    by apply bool_decide_eq_false.
  - exact IH.
Qed.

Lemma rstrip_newline_fixed s :
  endswith_newline s = false -> rstrip_newline s = s.
Proof.
  induction s as [|c s IH]; simpl; [done|].
  destruct s as [|c' s'].
  - intros Hne%bool_decide_eq_false. simpl. by rewrite decide_False.
  - intros Hend. by rewrite (IH Hend).
Qed.

Lemma rstrip_newline_idemp s :
  rstrip_newline (rstrip_newline s) = rstrip_newline s.
Proof. apply rstrip_newline_fixed, rstrip_newline_not_endswith. Qed.

Lemma split_nonempty sep s : split sep s <> [].
Proof.
  destruct s as [|c s]; simpl; [done|].
  destruct (decide (c = sep)); [done|].
  by destruct (split sep s).
Qed.

(** Taking the document name of a path never fails. *)
Lemma document_name_of_total input_file :
  exists name, document_name_of input_file = Ok name.
Proof.
  unfold document_name_of.
  destruct (split "." (basename input_file)) as [|w ws] eqn:Hs.
  - by apply split_nonempty in Hs.
  - by exists w.
Qed.

(** The first word of [split] is the part before the first separator. *)
Lemma split_first sep s w ws :
  split sep s = w :: ws ->
  (forall c, c ∈ list_ascii_of_string w -> c <> sep) /\
  (ws = [] /\ s = w \/ exists rest, s = w +:+ String sep rest).
Proof.
  revert w ws. induction s as [|c s IH]; simpl; intros w ws Hs.
  - injection Hs as <- <-. split; [intros c Hin; inversion Hin | by left].
  - destruct (decide (c = sep)) as [->|Hne].
    + injection Hs as <- <-. split; [intros c Hin; inversion Hin|].
      right. by exists s.
    + destruct (split sep s) as [|w' ws'] eqn:Hs'.
      { by apply split_nonempty in Hs'. }
      injection Hs as <- <-.
      destruct (IH w' ws' eq_refl) as [Hw Hrest]. split.
      * simpl. intros c' [->|Hin]%elem_of_cons; auto.
      * destruct Hrest as [[-> ->]|[rest ->]]; [by left|].
        right. by exists rest.
Qed.

(** ** The transform *)
Section transform_facts.
Context {Atom : Type} `{EqDecision Atom}.
Implicit Types (x key : pyscalar Atom) (v : pyvalue Atom).


Lemma transform_scalar_trimmed x : scalar_trimmed (transform_scalar x) = true.
Proof.
  destruct x as [|s|a]; simpl; [done| |done].
  by rewrite rstrip_newline_not_endswith.
Qed.

Lemma transform_scalar_fixed x :
  scalar_trimmed x = true -> transform_scalar x = x.
Proof.
  destruct x as [|s|a]; simpl; [done| |done].
  intros Hend%negb_true_iff. by rewrite rstrip_newline_fixed.
Qed.

Lemma transform_scalar_idemp x :
  transform_scalar (transform_scalar x) = transform_scalar x.
Proof. apply transform_scalar_fixed, transform_scalar_trimmed. Qed.

(** A scalar that is not a [str] goes through unchanged. *)
Lemma transform_scalar_other x : is_str x = false -> transform_scalar x = x.
Proof. by destruct x. Qed.

Lemma transform_no_trailing_newline v :
  no_trailing_newline (transform_data v) = true.
Proof.
  induction v as [x|l IH|items IH] using pyvalue_induction; simpl.
  - apply transform_scalar_trimmed.
  - apply forallb_forall. intros v' (v & <- & Hin)%in_map_iff.
    rewrite Forall_forall in IH. apply IH. by apply list_elem_of_In.
  - apply forallb_forall. intros [key' v'] Hin.
    apply list_elem_of_In, elem_of_dict_of_items, list_elem_of_In in Hin.
    apply in_map_iff in Hin as ([key v] & [= <- <-] & Hin).
    rewrite Forall_forall in IH.
    apply list_elem_of_In, IH in Hin. simpl in Hin.
    by rewrite transform_scalar_trimmed, Hin.
Qed.
End transform_facts.

(** ** [list.insert] *)
Section list_insert_facts.
Context {A : Type}.
Implicit Types (x y : A) (l : list A).

Lemma list_insert_inserted_at i x l : list_insert i x l = inserted_at i x l.
Proof.
  unfold inserted_at. revert l.
  induction i as [|i IH]; intros [|y l]; simpl; try done.
  by rewrite IH.
Qed.

Lemma list_insert_length i x l : length (list_insert i x l) = S (length l).
Proof.
  revert l. induction i as [|i IH]; intros [|y l]; simpl; try done.
  by rewrite IH.
Qed.

Lemma elem_of_list_insert i x y l :
  y ∈ list_insert i x l <-> y = x \/ y ∈ l.
Proof.
  revert l. induction i as [|i IH]; intros [|y' l]; simpl;
    rewrite ?elem_of_cons, ?IH, ?elem_of_nil; tauto.
Qed.

Lemma list_insert_past_end i x l :
  length l <= i -> list_insert i x l = l ++ [x].
Proof.
  revert l. induction i as [|i IH]; intros [|y l]; simpl; try done; try lia.
  intros Hlen. rewrite IH; [done | lia].
Qed.

Lemma list_insert_lookup i x l :
  i <= length l -> list_insert i x l !! i = Some x.
Proof.
  revert l. induction i as [|i IH]; intros [|y l]; simpl; try done; try lia.
  intros Hlen. apply IH. lia.
Qed.
End list_insert_facts.

(** ** The handlers *)
Section handler_facts.
Context {Atom : Type} `{EqDecision Atom}.
Implicit Types (loaded_documents : list (string * pyvalue Atom)).
Implicit Types (items : list (pyscalar Atom * pyvalue Atom)).

Lemma check_document_loaded_absent d loaded_documents :
  dict_contains d loaded_documents = false ->
  check_document_loaded d loaded_documents =
    Raise (HTTPException 404 ("Document " +:+ d +:+ ".yml not found")).
Proof. intros Habs. unfold check_document_loaded. by rewrite Habs. Qed.

Lemma check_document_loaded_present d loaded_documents content :
  dict_get d loaded_documents = Some content ->
  check_document_loaded d loaded_documents = Ok content.
Proof.
  intros Hget. unfold check_document_loaded.
  assert (Hc : dict_contains d loaded_documents = true)
    by (apply dict_contains_get; eauto).
  by rewrite Hc, Hget.
Qed.

Lemma getitem_present items key v :
  dict_get (PyStr key) items = Some v -> getitem (PyDict items) key = Ok v.
Proof. intros Hget. simpl. by rewrite Hget. Qed.

Lemma getitem_absent items key :
  dict_get (PyStr key) items = None ->
  getitem (PyDict items) key = Raise (KeyError key).
Proof. intros Hget. simpl. by rewrite Hget. Qed.
(** A stored value that is not a mapping has no [keys]: the handlers below
    are stated for mappings, which is what the data model and the annotation
    of [load_document] take a document to be. *)
Lemma sections_of_non_mapping d loaded_documents content :
  dict_get d loaded_documents = Some content ->
  (forall items, content <> PyDict items) ->
  get_document_content_sections d loaded_documents = Raise AttributeError.
Proof.
  intros Hdoc Hnot. unfold get_document_content_sections.
  rewrite (check_document_loaded_present _ _ _ Hdoc). cbn [bind].
  destruct content as [x|l|items]; try done. by destruct (Hnot items).
Qed.
End handler_facts.

(** ** The load phase *)
Section last_store_facts.
Context {K V : Type} `{EqDecision K}.
Implicit Types (k : K) (v : V) (d front back : list (K * V)).

Lemma dict_get_None_keys k d : dict_get k d = None <-> k ∉ dict_keys d.
Proof.
  rewrite <- dict_contains_false, <- dict_contains_keys.
  by destruct (dict_contains k d).
Qed.

Lemma dict_keys_rev k d : k ∈ dict_keys (rev d) <-> k ∈ dict_keys d.
Proof.
  unfold dict_keys. rewrite map_rev, !list_elem_of_In.
  symmetry. apply in_rev.
Qed.

(** The pair stored last under a key is the one a lookup finds. *)
Lemma dict_get_rev_last k v front back :
  k ∉ dict_keys back -> dict_get k (rev (front ++ (k, v) :: back)) = Some v.
Proof.
  intros Hback. rewrite rev_app_distr. simpl.
  rewrite <- app_assoc, dict_get_app.
  assert (Hnone : dict_get k (rev back) = None).
  { apply dict_get_None_keys. by rewrite dict_keys_rev. }
  rewrite Hnone. simpl. by rewrite decide_True.
Qed.

Lemma dict_get_rev_split k v d :
  dict_get k (rev d) = Some v ->
  exists front back, d = front ++ (k, v) :: back /\ k ∉ dict_keys back.
Proof.
  induction d as [|[k' v'] d IH]; simpl; [discriminate|].
  rewrite dict_get_app. destruct (dict_get k (rev d)) as [w|] eqn:Hrev.
  - intros [= ->]. destruct (IH eq_refl) as (front & back & -> & Hback).
    by exists ((k', v') :: front), back.
  - simpl. destruct (decide (k = k')) as [<-|]; [|discriminate].
    intros [= ->]. exists [], d. split; [done|].
    apply dict_get_None_keys in Hrev. by rewrite dict_keys_rev in Hrev.
Qed.
End last_store_facts.

Section endpoint_load_facts.
Context {Atom : Type} `{EqDecision Atom}.
Variable safe_load : string -> parse_outcome Atom.

Abbreviation endpoint_loads := (Endpoint.loads_as safe_load).

Lemma endpoint_loads_inv p e :
  endpoint_loads p e ->
  exists parsed,
    safe_load p = Parsed parsed /\ document_name_of p = Ok e.1 /\
    e.2 = transform_data parsed.
Proof.
  unfold Endpoint.loads_as, Endpoint.load_document, Endpoint.read_yaml_file.
  destruct (safe_load p) as [parsed|]; cbn [bind]; [|discriminate].
  destruct (document_name_of p) as [name|]; cbn [bind]; [|discriminate].
  intros [= <-]. by exists parsed.
Qed.

Lemma endpoint_loads_parsed p parsed name :
  safe_load p = Parsed parsed -> document_name_of p = Ok name ->
  endpoint_loads p (name, transform_data parsed).
Proof.
  intros Hp Hname.
  unfold Endpoint.loads_as, Endpoint.load_document, Endpoint.read_yaml_file.
  by rewrite Hp, Hname.
Qed.

Lemma endpoint_loads_malformed p :
  safe_load p = Malformed ->
  Endpoint.load_document safe_load p = Raise YAMLError.
Proof.
  intros Hp. unfold Endpoint.load_document, Endpoint.read_yaml_file.
  by rewrite Hp.
Qed.

Lemma endpoint_store_results_inv paths acc store :
  Endpoint.store_results (map (Endpoint.load_document safe_load) paths) acc
    = Ok store ->
  exists entries,
    Forall2 endpoint_loads paths entries /\ store = dict_update acc entries.
Proof.
  revert acc. induction paths as [|p paths IH]; intros acc; simpl.
  - intros [= <-]. exists []. split; [constructor | done].
  - destruct (Endpoint.load_document safe_load p) as [e|] eqn:Hp;
      cbn [bind]; [|discriminate].
    intros (entries & Hall & ->)%IH.
    exists (e :: entries). split; [by constructor | done].
Qed.

Lemma endpoint_store_results_all paths entries acc :
  Forall2 endpoint_loads paths entries ->
  Endpoint.store_results (map (Endpoint.load_document safe_load) paths) acc
    = Ok (dict_update acc entries).
Proof.
  intros Hall. revert acc.
  induction Hall as [|p e paths entries Hp _ IH]; intros acc; simpl; [done|].
  unfold Endpoint.loads_as in Hp. rewrite Hp. cbn [bind]. apply IH.
Qed.

(** [load_document] raises nothing but [yaml.YAMLError]. *)
Lemma endpoint_load_document_raises p e :
  Endpoint.load_document safe_load p = Raise e -> e = YAMLError.
Proof.
  unfold Endpoint.load_document, Endpoint.read_yaml_file.
  destruct (safe_load p) as [parsed|]; cbn [bind]; [|by intros [= <-]].
  destruct (document_name_of_total p) as [name ->]. discriminate.
Qed.

(** One malformed file among the inputs makes the whole loop raise. *)
Lemma endpoint_store_results_malformed paths f acc :
  f ∈ paths -> safe_load f = Malformed ->
  Endpoint.store_results (map (Endpoint.load_document safe_load) paths) acc
    = Raise YAMLError.
Proof.
  intros Hin Hf. revert acc.
  induction paths as [|p paths IH]; intros acc; [by apply elem_of_nil in Hin|].
  simpl. destruct (Endpoint.load_document safe_load p) as [e|e] eqn:Hp.
  - cbn [bind]. apply elem_of_cons in Hin as [->|Hin]; [|by apply IH].
    rewrite (endpoint_loads_malformed _ Hf) in Hp. discriminate.
  - cbn [bind]. by rewrite (endpoint_load_document_raises _ _ Hp).
Qed.

(** When every file parses, every file is loaded as some entry. *)
Lemma endpoint_loads_all_parsed paths :
  (forall f, f ∈ paths -> exists v, safe_load f = Parsed v) ->
  exists entries, Forall2 endpoint_loads paths entries.
Proof.
  induction paths as [|p paths IH]; intros Hparse.
  - exists []. constructor.
  - destruct (Hparse p) as [v Hv]; [left|].
    destruct (document_name_of_total p) as [name Hname].
    destruct IH as [entries Hall]; [intros f Hf; apply Hparse; by right|].
    exists ((name, transform_data v) :: entries).
    constructor; [by apply endpoint_loads_parsed | done].
Qed.

(** Entries of files none of which has the document name [name]. *)
Lemma endpoint_loads_other_names paths entries name :
  Forall2 endpoint_loads paths entries ->
  (forall f, f ∈ paths -> document_name_of f <> Ok name) ->
  name ∉ dict_keys entries.
Proof.
  unfold dict_keys.
  induction 1 as [|p e paths entries Hp _ IH]; intros Hother; simpl.
  - by intros Hin%elem_of_nil.
  - apply not_elem_of_cons. split.
    + intros ->. destruct (endpoint_loads_inv _ _ Hp) as (_ & _ & Hname & _).
      by apply (Hother p); [left|].
    + apply IH. intros f Hf. apply Hother. by right.
Qed.

(** Conversely, a name that is no entry's key is no file's document name. *)
Lemma endpoint_loads_names_other paths entries name :
  Forall2 endpoint_loads paths entries ->
  name ∉ dict_keys entries ->
  forall f, f ∈ paths -> document_name_of f <> Ok name.
Proof.
  unfold dict_keys.
  induction 1 as [|p e paths entries Hp _ IH]; simpl.
  - by intros _ f Hin%elem_of_nil.
  - intros [Hne Hnotin]%not_elem_of_cons f [->|Hf]%elem_of_cons; [|by apply IH].
    destruct (endpoint_loads_inv _ _ Hp) as (_ & _ & Hname & _).
    rewrite Hname. by intros [= ?].
Qed.
End endpoint_load_facts.

Section user_document_load_facts.
Context {Atom : Type} `{EqDecision Atom}.
Variable read_yaml_file : string -> result (pyvalue Atom).

Abbreviation user_document_loads := (UserDocument.loads_as read_yaml_file).

Lemma user_document_loads_inv p e :
  user_document_loads p (Some e) ->
  document_name_of p = Ok e.1 /\ read_yaml_file p = Ok e.2 /\
  UserDocument.is_none e.2 = false.
Proof.
  unfold UserDocument.loads_as, UserDocument.load_document.
  destruct (read_yaml_file p) as [content|]; cbn [bind]; [|discriminate].
  destruct (UserDocument.is_none content) eqn:Hnone; [discriminate|].
  destruct (document_name_of p) as [name|]; cbn [bind]; [|discriminate].
  by intros [= <-].
Qed.

Lemma user_document_loads_content p content name :
  read_yaml_file p = Ok content -> UserDocument.is_none content = false ->
  document_name_of p = Ok name ->
  user_document_loads p (Some (name, content)).
Proof.
  intros Hp Hnone Hname. unfold UserDocument.loads_as, UserDocument.load_document.
  rewrite Hp. cbn [bind]. by rewrite Hnone, Hname.
Qed.

Lemma user_document_store_results_all paths oentries acc :
  Forall2 user_document_loads paths oentries ->
  UserDocument.store_results
    (map (UserDocument.load_document read_yaml_file) paths) acc
    = Ok (dict_update acc (omap id oentries)).
Proof.
  intros Hall. revert acc.
  induction Hall as [|p oe paths oentries Hp _ IH]; intros acc; simpl; [done|].
  unfold UserDocument.loads_as in Hp. rewrite Hp. cbn [bind].
  destruct oe as [[name content]|]; apply IH.
Qed.

(** A reader that raises nothing lets every file be loaded or skipped. *)
Lemma user_document_loads_total paths :
  (forall f, f ∈ paths -> exists content, read_yaml_file f = Ok content) ->
  exists oentries, Forall2 user_document_loads paths oentries.
Proof.
  induction paths as [|p paths IH]; intros Hread.
  - exists []. constructor.
  - destruct (Hread p) as [content Hp]; [left|].
    destruct (document_name_of_total p) as [name Hname].
    destruct IH as [oentries Hall]; [intros f Hf; apply Hread; by right|].
    destruct (UserDocument.is_none content) eqn:Hnone.
    + exists (None :: oentries). constructor; [|done].
      unfold UserDocument.loads_as, UserDocument.load_document.
      rewrite Hp. cbn [bind]. by rewrite Hnone.
    + exists (Some (name, content) :: oentries).
      constructor; [by apply user_document_loads_content | done].
Qed.

Lemma user_document_loads_other_names paths oentries name :
  Forall2 user_document_loads paths oentries ->
  (forall f, f ∈ paths -> document_name_of f <> Ok name) ->
  name ∉ dict_keys (omap id oentries).
Proof.
  unfold dict_keys.
  induction 1 as [|p oe paths oentries Hp _ IH]; intros Hother.
  - by intros Hin%elem_of_nil.
  - assert (Hrest : name ∉ map fst (omap id oentries)).
    { apply IH. intros f Hf. apply Hother. by right. }
    destruct oe as [e|]; [|exact Hrest].
    change (name ∉ e.1 :: map fst (omap id oentries)).
    apply not_elem_of_cons. split; [|exact Hrest].
    intros ->. destruct (user_document_loads_inv _ _ Hp) as (Hname & _).
    by apply (Hother p); [left|].
Qed.
End user_document_load_facts.

(** The reader modelled after the specification raises nothing, and answers
    [None] exactly for a malformed file or a file whose content is [None]. *)
Lemma document_handler_read_total {Atom : Type} `{EqDecision Atom}
    (safe_load : string -> parse_outcome Atom) (input_file : string) :
  exists content,
    DocumentHandler.read_yaml_file safe_load input_file = Ok content.
Proof.
  unfold DocumentHandler.read_yaml_file.
  destruct (safe_load input_file); eauto.
Qed.

(** With that reader the loader of [routes/user_document.py] always builds a
    store, and a malformed file adds no entry to it. *)
Lemma user_document_load_skips_malformed {Atom : Type} `{EqDecision Atom}
    (glob : string -> list string)
    (safe_load : string -> parse_outcome Atom) :
  exists oentries,
    Forall2 (UserDocument.loads_as (DocumentHandler.read_yaml_file safe_load))
      (glob "yml/*.yml") oentries /\
    UserDocument.loaded_documents glob
      (DocumentHandler.read_yaml_file safe_load)
      = Ok (dict_of_items (omap id oentries)) /\
    (forall f, safe_load f = Malformed ->
       UserDocument.loads_as (DocumentHandler.read_yaml_file safe_load) f
         None).
Proof.
  destruct (user_document_loads_total
              (DocumentHandler.read_yaml_file safe_load) (glob "yml/*.yml"))
    as [oentries Hall].
  { intros f _. apply document_handler_read_total. }
  exists oentries. split; [done|]. split.
  - by apply user_document_store_results_all.
  - intros f Hf.
    unfold UserDocument.loads_as, UserDocument.load_document,
      DocumentHandler.read_yaml_file.
    by rewrite Hf.
Qed.

(** In [endpoint.py] any malformed file of the directory listing aborts the
    load, wherever it stands in the listing. *)
Lemma endpoint_load_aborts_on_malformed {Atom : Type} `{EqDecision Atom}
    (glob : string -> list string) (safe_load : string -> parse_outcome Atom)
    (f : string) :
  f ∈ glob "yml/*.yml" -> safe_load f = Malformed ->
  Endpoint.loaded_documents glob safe_load = Raise YAMLError.
Proof.
  intros Hin Hf. unfold Endpoint.loaded_documents.
  by apply (endpoint_store_results_malformed safe_load _ f).
Qed.

(** ** The trimmed copy *)

Lemma rstrip_newline_suffix s : exists n, s = rstrip_newline s +:+ newlines n.
Proof.
  induction s as [|c s [n IH]]; simpl; [by exists 0|].
  destruct (rstrip_newline s) as [|c' r] eqn:Hr.
  - destruct (decide (c = newline)) as [->|Hne].
    + exists (S n). simpl. by rewrite IH at 1.
    + exists n. simpl. by rewrite IH at 1.
  - exists n. simpl. by rewrite IH at 1.
Qed.

Lemma rstrip_newline_app_newlines s n :
  rstrip_newline (s +:+ newlines n) = rstrip_newline s.
Proof.
  induction s as [|c s IH].
  - change (rstrip_newline (newlines n) = "").
    induction n as [|n IHn]; simpl; [done|]. by rewrite IHn.
  - change (rstrip_newline (String c (s +:+ newlines n))
            = rstrip_newline (String c s)).
    simpl. by rewrite IH.
Qed.

(** A relation that a function decides is that function, list by list. *)
Lemma Forall2_is_map {A B : Type} (R : A -> B -> Prop) (f : A -> B)
    (l : list A) (l' : list B) :
  Forall (fun x => forall y, R x y -> y = f x) l ->
  Forall2 R l l' -> l' = map f l.
Proof.
  intros Hfun Hall. induction Hall as [|x y l l' Hxy _ IH]; simpl; [done|].
  apply Forall_cons in Hfun as [Hx Hl]. by rewrite (Hx y Hxy), IH.
Qed.

Lemma Forall2_map_of {A B : Type} (R : A -> B -> Prop) (f : A -> B)
    (l : list A) :
  Forall (fun x => R x (f x)) l -> Forall2 R l (map f l).
Proof. induction 1; simpl; by constructor. Qed.

Section trimmed_copy_facts.
Context {Atom : Type} `{EqDecision Atom}.
Implicit Types (x : pyscalar Atom) (v : pyvalue Atom).

Lemma transform_scalar_is_trimmed x : trimmed_scalar x (transform_scalar x).
Proof.
  destruct x as [|s|a]; simpl; [constructor| |constructor].
  destruct (rstrip_newline_suffix s) as [n Hs].
  by apply (trimmed_str _ _ n), rstrip_newline_not_endswith.
Qed.

Lemma trimmed_scalar_is_transform x x' :
  trimmed_scalar x x' -> x' = transform_scalar x.
Proof.
  destruct 1 as [s s' n -> Hend| |a]; simpl; [|done..].
  by rewrite rstrip_newline_app_newlines, rstrip_newline_fixed.
Qed.

(** The transform builds a trimmed copy ... *)
Lemma transform_data_is_trimmed_copy v : trimmed_copy v (transform_data v).
Proof.
  induction v as [x|l IH|items IH] using pyvalue_induction; simpl.
  - constructor. apply transform_scalar_is_trimmed.
  - constructor. by apply Forall2_map_of.
  - constructor. apply Forall2_map_of.
    apply Forall_forall. intros [key value] Hin. simpl. split.
    + apply transform_scalar_is_trimmed.
    + rewrite Forall_forall in IH. apply (IH _ Hin).
Qed.

(** ... and a structure has no other trimmed copy. *)
Lemma trimmed_copy_is_transform v :
  forall v', trimmed_copy v v' -> v' = transform_data v.
Proof.
  induction v as [x|l IH|items IH] using pyvalue_induction;
    intros v' Hcopy; inversion Hcopy as [? x' Hx|? l' Hl|? pairs Hpairs];
    subst; simpl.
  - by rewrite (trimmed_scalar_is_transform _ _ Hx).
  - f_equal. by apply (Forall2_is_map trimmed_copy).
  - do 2 f_equal.
    apply (Forall2_is_map
             (fun kv kv' =>
                trimmed_scalar kv.1 kv'.1 /\ trimmed_copy kv.2 kv'.2));
      [|done].
    apply Forall_forall. intros [key value] Hin [key' value'] [Hkey Hvalue].
    simpl in *. rewrite Forall_forall in IH.
    by rewrite (trimmed_scalar_is_transform _ _ Hkey), (IH _ Hin _ Hvalue).
Qed.

Lemma no_trailing_newline_strings v :
  no_trailing_newline v = true ->
  forall s, s ∈ strings_in_lists_and_dicts v -> endswith_newline s = false.
Proof.
  unfold strings_in_lists_and_dicts.
  induction v as [x|l IH|items IH] using pyvalue_induction; simpl;
    intros Htrim s Hs.
  - destruct x as [|t|a]; simpl in *; try by apply elem_of_nil in Hs.
    apply list_elem_of_singleton in Hs as ->. by apply negb_true_iff.
  - apply list_elem_of_In, in_concat in Hs as (strs & Hstrs & Hs).
    apply in_map_iff in Hstrs as (v & <- & Hv).
    rewrite Forall_forall in IH.
    apply (IH v); [by apply list_elem_of_In | | by apply list_elem_of_In].
    by apply (proj1 (forallb_forall _ _) Htrim).
  - apply list_elem_of_In, in_concat in Hs as (strs & Hstrs & Hs).
    apply in_map_iff in Hstrs as ([key value] & <- & Hkv).
    pose proof (proj1 (forallb_forall _ _) Htrim _ Hkv) as Hpair.
    simpl in Hpair. apply andb_true_iff in Hpair as [Hkey Hvalue].
    apply in_app_or in Hs as [Hs|Hs].
    + destruct key as [|t|a]; simpl in *; try done.
      destruct Hs as [<-|[]]. by apply negb_true_iff.
    + rewrite Forall_forall in IH.
      apply (IH (key, value)); [by apply list_elem_of_In | done |].
      by apply list_elem_of_In.
Qed.
End trimmed_copy_facts.

(** * The claims of the specification *)

(** C1: for a document name [d] that is not a key of the store, each of the
    five per-document handlers (document, sections, metadata,
    document_control, section) raises the [HTTPException] with status 404
    and detail "Document d.yml not found"; none of them returns a value. *)
Theorem absent_document_not_found {Atom : Type} `{EqDecision Atom}
    (d section : string) (loaded_documents : list (string * pyvalue Atom)) :
  dict_contains d loaded_documents = false ->
  let not_found :=
    HTTPException 404 ("Document " +:+ d +:+ ".yml not found") in
  get_document_content d loaded_documents = Raise not_found /\
  get_document_content_sections d loaded_documents = Raise not_found /\
  get_document_content_metadata d loaded_documents = Raise not_found /\
  get_document_document_control d loaded_documents = Raise not_found /\
  get_document_content_section d section loaded_documents = Raise not_found.
Proof.
  intros Habs not_found.
  unfold get_document_content, get_document_content_sections,
    get_document_content_metadata, get_document_document_control,
    get_document_content_section.
  rewrite (check_document_loaded_absent _ _ Habs). simpl.
  by repeat split.
Qed.

Lemma absent_document_not_found_witness :
  dict_contains "unknown_doc" Sample.store = false /\
  get_document_content "unknown_doc" Sample.store =
    Raise (HTTPException 404 "Document unknown_doc.yml not found") /\
  is_http_404 (get_document_content_section "unknown_doc" "purpose"
                 Sample.store) = true.
Proof.
  assert (Habs : dict_contains "unknown_doc" Sample.store = false)
    by reflexivity.
  destruct (absent_document_not_found "unknown_doc" "purpose" Sample.store Habs)
    as (Hdoc & _ & _ & _ & Hsec).
  split; [exact Habs|]. split; [exact Hdoc|]. by rewrite Hsec.
Defined.

(** C2: for a mapping document [d] of the store, the section handler returns
    the value stored under the top-level key [s] (the value the document
    handler's result holds at [s]) whenever [s] is a top-level key, and
    raises the [HTTPException] with status 404 and detail
    "Section 's' doesn't exist in d.yml" exactly when [s] is not one. *)
Theorem section_value_or_section_not_found {Atom : Type} `{EqDecision Atom}
    (d s : string) (loaded_documents : list (string * pyvalue Atom))
    (items : list (pyscalar Atom * pyvalue Atom)) :
  dict_get d loaded_documents = Some (PyDict items) ->
  (PyStr s ∈ dict_keys items ->
   exists v,
     dict_get (PyStr s) items = Some v /\
     get_document_content_section d s loaded_documents = Ok v /\
     (content <- get_document_content d loaded_documents ;; getitem content s)
       = Ok v) /\
  (PyStr s ∉ dict_keys items <->
   get_document_content_section d s loaded_documents =
     Raise (HTTPException 404
              ("Section '" +:+ s +:+ "' doesn't exist in " +:+ d +:+ ".yml"))).
Proof.
  intros Hdoc.
  unfold get_document_content_section, get_document_content.
  rewrite (check_document_loaded_present _ _ _ Hdoc). simpl.
  destruct (dict_contains (PyStr s) items) eqn:Hc; simpl.
  - pose proof (proj1 (dict_contains_keys _ _) Hc) as Hkey.
    destruct (proj1 (dict_contains_get _ _) Hc) as [v Hv].
    rewrite Hv. split.
    + intros _. by exists v.
    + split; [by intros Hnot | discriminate].
  - assert (Hnot : PyStr s ∉ dict_keys items).
    { intros Hkey%dict_contains_keys. congruence. }
    split; [by intros Hkey | by split].
Qed.

Lemma section_value_or_section_not_found_witness :
  dict_get "policy_a" Sample.store = Some (transform_data Sample.policy_a) /\
  get_document_content_section "policy_a" "purpose" Sample.store =
    Ok (PyList [Sample.str "control access"]) /\
  get_document_content_section "policy_a" "appendix" Sample.store =
    Raise (HTTPException 404
             "Section 'appendix' doesn't exist in policy_a.yml").
Proof.
  assert (Hdoc : dict_get "policy_a" Sample.store =
                   Some (transform_data Sample.policy_a)) by reflexivity.
  split; [exact Hdoc|].
  destruct (section_value_or_section_not_found "policy_a" "purpose"
              Sample.store _ Hdoc) as [Hpresent _].
  destruct (section_value_or_section_not_found "policy_a" "appendix"
              Sample.store _ Hdoc) as [_ Habsent].
  split.
  - destruct Hpresent as (v & Hv & Hsec & _).
    + apply dict_contains_keys. reflexivity.
    + rewrite Hsec. f_equal.
      assert (Hv' : Some v = Some (PyList [Sample.str "control access"]))
        by (rewrite <- Hv; reflexivity).
      by injection Hv'.
  - apply Habsent. intros Hkey%dict_contains_keys. discriminate Hkey.
Defined.

(** C3: for a mapping document [d] of the store, the sections handler returns
    the document's own top-level keys with "metadata" inserted at index 6 and
    "document_control" inserted at index 10 of the list so obtained; with at
    least 6 (resp. 9) keys of its own the two names sit at indices 6 and
    10. *)
Theorem sections_inserted_at_6_and_10 {Atom : Type} `{EqDecision Atom}
    (d : string) (loaded_documents : list (string * pyvalue Atom))
    (items : list (pyscalar Atom * pyvalue Atom)) :
  dict_get d loaded_documents = Some (PyDict items) ->
  exists sections,
    get_document_content_sections d loaded_documents = Ok sections /\
    sections =
      inserted_at 10 (PyStr "document_control")
        (inserted_at 6 (PyStr "metadata") (dict_keys items)) /\
    (6 <= length (dict_keys items) ->
     sections !! 6 = Some (PyStr "metadata")) /\
    (9 <= length (dict_keys items) ->
     sections !! 10 = Some (PyStr "document_control")).
Proof.
  intros Hdoc. unfold get_document_content_sections.
  rewrite (check_document_loaded_present _ _ _ Hdoc). cbn [bind keys].
  eexists. split; [reflexivity|].
  set (ks := dict_keys items).
  set (with_metadata := list_insert 6 (PyStr "metadata") ks).
  assert (Hlen : length with_metadata = S (length ks))
    by apply list_insert_length.
  split; [|split].
  - rewrite list_insert_inserted_at. unfold with_metadata.
    by rewrite list_insert_inserted_at.
  - intros H6. rewrite list_insert_inserted_at. unfold inserted_at.
    rewrite lookup_app_l by (rewrite length_take; lia).
    rewrite lookup_take_lt by lia.
    by apply list_insert_lookup.
  - intros H9. apply list_insert_lookup. lia.
Qed.

Lemma sections_inserted_at_6_and_10_witness :
  dict_get "policy_a" Sample.store = Some (transform_data Sample.policy_a) /\
  get_document_content_sections "policy_a" Sample.store =
    Ok (map PyStr
          ["type"; "document_no"; "title"; "document_code"; "effective_date";
           "document_rev"; "metadata"; "purpose"; "revision_history";
           "prepared_by"; "document_control"; "reviewed_approved_by"]).
Proof.
  assert (Hdoc : dict_get "policy_a" Sample.store =
                   Some (transform_data Sample.policy_a)) by reflexivity.
  split; [exact Hdoc|].
  destruct (sections_inserted_at_6_and_10 "policy_a" Sample.store _ Hdoc)
    as (sections & -> & -> & _).
  reflexivity.
Defined.

(** C4: for a mapping document [d] of the store that holds the six source
    fields, the metadata handler returns the mapping with exactly the six keys
    document_type, document_no, effective_date, document_rev, title and
    document_code, bound to the document's values at type, document_no,
    effective_date, document_rev, title and document_code. *)
Theorem metadata_is_six_field_projection {Atom : Type} `{EqDecision Atom}
    (d : string) (loaded_documents : list (string * pyvalue Atom))
    (items : list (pyscalar Atom * pyvalue Atom))
    (document_type document_no effective_date document_rev title
       document_code : pyvalue Atom) :
  dict_get d loaded_documents = Some (PyDict items) ->
  dict_get (PyStr "type") items = Some document_type ->
  dict_get (PyStr "document_no") items = Some document_no ->
  dict_get (PyStr "effective_date") items = Some effective_date ->
  dict_get (PyStr "document_rev") items = Some document_rev ->
  dict_get (PyStr "title") items = Some title ->
  dict_get (PyStr "document_code") items = Some document_code ->
  get_document_content_metadata d loaded_documents =
    Ok (PyDict [ (PyStr "document_type", document_type);
                 (PyStr "document_no", document_no);
                 (PyStr "effective_date", effective_date);
                 (PyStr "document_rev", document_rev);
                 (PyStr "title", title);
                 (PyStr "document_code", document_code) ]).
Proof.
  intros Hdoc Htype Hno Hdate Hrev Htitle Hcode.
  unfold get_document_content_metadata.
  rewrite (check_document_loaded_present _ _ _ Hdoc). cbn [bind].
  rewrite (getitem_present _ _ _ Htype), (getitem_present _ _ _ Hno),
    (getitem_present _ _ _ Hdate), (getitem_present _ _ _ Hrev),
    (getitem_present _ _ _ Htitle), (getitem_present _ _ _ Hcode).
  cbn [bind]. reflexivity.
Qed.

Lemma metadata_is_six_field_projection_witness :
  dict_get "policy_a" Sample.store = Some (transform_data Sample.policy_a) /\
  get_document_content_metadata "policy_a" Sample.store =
    Ok (PyDict [ (PyStr "document_type", Sample.str "SOP");
                 (PyStr "document_no", Sample.str "001");
                 (PyStr "effective_date", Sample.str "2024-01-01");
                 (PyStr "document_rev", PyScalar (PyOther 1%Z));
                 (PyStr "title", Sample.str "Access Control");
                 (PyStr "document_code", Sample.str "AC-1") ]).
Proof.
  split; [reflexivity|].
  eapply metadata_is_six_field_projection; reflexivity.
Defined.

(** C5 fails in [endpoint.py]: with a file that does not parse in the
    directory, [yaml.YAMLError] leaves [load_document], the loop over the
    results and the module; no store is built.  The loader of
    [routes/user_document.py], run on the same directory with a reader that
    answers [None] for such a file, keeps the well-formed document. *)
Theorem malformed_file_aborts_endpoint_load :
  Endpoint.loaded_documents Sample.glob_with_malformed Sample.safe_load
    = Raise YAMLError /\
  UserDocument.loaded_documents Sample.glob_with_malformed
    (DocumentHandler.read_yaml_file Sample.safe_load)
    = Ok [("policy_a", transform_data Sample.policy_a)].
Proof. split; reflexivity. Qed.

(** C6, as the specification states it, fails: on a stored mapping without
    the field type the metadata handler raises [KeyError], which is not the
    404 [HTTPException] of an unknown document. *)
Lemma metadata_missing_field_is_not_404 :
  dict_get "policy_a" Sample.draft_store =
    Some (transform_data Sample.policy_a_draft) /\
  first_missing_field [ (PyStr "title", Sample.str "Draft");
                        (PyStr "k", Sample.str "v") ] = Some "type" /\
  get_document_content_metadata "policy_a" Sample.draft_store =
    Raise (KeyError "type") /\
  is_http_404 (get_document_content_metadata "policy_a" Sample.draft_store)
    = false.
Proof. by repeat split. Qed.

(** C6, amended: for a mapping document [d] of the store that lacks one of the
    six source fields, the metadata handler returns no value and raises
    [KeyError] for the first field that is missing, in the order type,
    document_no, effective_date, document_rev, title, document_code; this is
    not an [HTTPException], so not a 404. *)
Theorem metadata_missing_field_key_error {Atom : Type} `{EqDecision Atom}
    (d field : string) (loaded_documents : list (string * pyvalue Atom))
    (items : list (pyscalar Atom * pyvalue Atom)) :
  dict_get d loaded_documents = Some (PyDict items) ->
  field ∈ metadata_source_fields ->
  PyStr field ∉ dict_keys items ->
  exists missing,
    first_missing_field items = Some missing /\
    get_document_content_metadata d loaded_documents
      = Raise (KeyError missing) /\
    is_http_404 (get_document_content_metadata d loaded_documents) = false.
Proof.
  intros Hdoc Hfield Hnot.
  assert (Hlacks : dict_contains (PyStr field) items = false).
  { destruct (dict_contains (PyStr field) items) eqn:Hc; [|done].
    by apply dict_contains_keys in Hc. }
  unfold first_missing_field, get_document_content_metadata.
  rewrite (check_document_loaded_present _ _ _ Hdoc). cbn [bind].
  unfold metadata_source_fields in *. cbn [find getitem].
  repeat
    match goal with
    | |- context [dict_contains (PyStr ?f) items] =>
        let Hc := fresh "Hc" in
        destruct (dict_contains (PyStr f) items) eqn:Hc; cbn [negb];
        [ apply dict_contains_get in Hc as [? Hc]; rewrite Hc; cbn [bind]
        | apply dict_contains_false in Hc; rewrite Hc; cbn [bind];
          by eexists ]
    end.
  exfalso.
  repeat (apply elem_of_cons in Hfield as [->|Hfield];
          [match goal with
           | Hget : dict_get (PyStr ?f) items = Some _ |- _ =>
               assert (dict_contains (PyStr f) items = true)
                 by (apply dict_contains_get; eauto); congruence
           end|]).
  inversion Hfield.
Qed.

Lemma metadata_missing_field_key_error_witness :
  dict_get "policy_a" Sample.draft_store =
    Some (transform_data Sample.policy_a_draft) /\
  get_document_content_metadata "policy_a" Sample.draft_store =
    Raise (KeyError "type").
Proof.
  split; [reflexivity|].
  destruct (metadata_missing_field_key_error "policy_a" "document_no"
              Sample.draft_store
              [ (PyStr "title", Sample.str "Draft");
                (PyStr "k", Sample.str "v") ])
    as (missing & Hfirst & Hraise & _).
  - reflexivity.
  - right. left.
  - intros Hkey%dict_contains_keys. discriminate Hkey.
  - rewrite Hraise. f_equal. f_equal.
    assert (Hm : Some missing = Some "type") by (rewrite <- Hfirst; reflexivity).
    by injection Hm.
Defined.

(** C7, as the specification states it, fails: the file [pairs.yml] is
    loaded, the document handler returns its content, and the string "x"
    followed by a newline is still in the returned structure, inside the
    tuple of a list. *)
Lemma omap_string_keeps_trailing_newline :
  Endpoint.loaded_documents SampleOmap.glob SampleOmap.safe_load =
    Ok [("pairs", SampleOmap.pairs)] /\
  get_document_content "pairs" [("pairs", SampleOmap.pairs)] =
    Ok SampleOmap.pairs /\
  String "x" (String newline "")
    ∈ all_strings SampleOmap.held SampleOmap.pairs /\
  endswith_newline (String "x" (String newline "")) = true.
Proof.
  split; [reflexivity|]. split; [reflexivity|]. split; [|reflexivity].
  apply list_elem_of_In. simpl. auto.
Qed.

(** C7, amended: when the load of [endpoint.py] has built the store and [d]
    is a key of it, the document handler returns the trimmed copy of the
    parsed content of [d]'s source file (the last file of the directory
    listing whose document name is [d]), and that copy is the only one: every
    string that is a key or a value of a dict or an element of a list, at
    any depth of dicts and lists, has lost the newlines at its end and no
    such string of the result ends with a newline; lists keep their
    elements and dicts are rebuilt from their pairs in order; [None] and
    every value that is neither a dict, a list nor a string (a tuple or a
    set with the strings inside it too) are returned as they are. *)
Theorem loaded_document_is_trimmed_copy {Atom : Type} `{EqDecision Atom}
    (glob : string -> list string) (safe_load : string -> parse_outcome Atom)
    (store : list (string * pyvalue Atom)) (d : string) :
  Endpoint.loaded_documents glob safe_load = Ok store ->
  dict_contains d store = true ->
  exists front input_file back parsed result,
    glob "yml/*.yml" = front ++ input_file :: back /\
    document_name_of input_file = Ok d /\
    (forall later, later ∈ back -> document_name_of later <> Ok d) /\
    safe_load input_file = Parsed parsed /\
    get_document_content d store = Ok result /\
    trimmed_copy parsed result /\
    (forall other, trimmed_copy parsed other -> other = result) /\
    (forall s, s ∈ strings_in_lists_and_dicts result ->
               endswith_newline s = false).
Proof.
  intros Hload Hin.
  unfold Endpoint.loaded_documents in Hload.
  apply endpoint_store_results_inv in Hload as (entries & Hall & ->).
  apply dict_contains_get in Hin as [content Hget].
  pose proof Hget as Hlast.
  fold (dict_of_items entries) in Hlast.
  rewrite dict_get_of_items in Hlast.
  apply dict_get_rev_split in Hlast as (efront & eback & -> & Hfresh).
  apply Forall2_app_inv_r in Hall as (front & rest & _ & Hrest & Hglob).
  apply Forall2_cons_inv_r in Hrest as (p & back & Hp & Hback & ->).
  destruct (endpoint_loads_inv _ _ _ Hp) as (parsed & Hparsed & Hname & Hc).
  simpl in Hname, Hc. subst content.
  exists front, p, back, parsed, (transform_data parsed).
  split_and!; try done.
  - by apply (endpoint_loads_names_other safe_load back eback).
  - unfold get_document_content.
    by rewrite (check_document_loaded_present _ _ _ Hget).
  - apply transform_data_is_trimmed_copy.
  - apply trimmed_copy_is_transform.
  - apply no_trailing_newline_strings, transform_no_trailing_newline.
Qed.

Lemma loaded_document_is_trimmed_copy_witness :
  Endpoint.loaded_documents Sample.glob Sample.safe_load =
    Ok [("policy_a", transform_data Sample.policy_a_draft)] /\
  exists parsed result,
    Sample.safe_load "yml/policy_a.draft.yml" = Parsed parsed /\
    get_document_content "policy_a"
      [("policy_a", transform_data Sample.policy_a_draft)] = Ok result /\
    trimmed_copy parsed result.
Proof.
  assert (Hload : Endpoint.loaded_documents Sample.glob Sample.safe_load =
                    Ok [("policy_a", transform_data Sample.policy_a_draft)])
    by reflexivity.
  split; [exact Hload|].
  destruct (loaded_document_is_trimmed_copy Sample.glob Sample.safe_load
              _ "policy_a" Hload eq_refl)
    as (front & f & back & parsed & result
        & Hglob & Hname & Hlater & Hparsed & Hdoc & Hcopy & _).
  exists parsed, result. split; [|by split].
  assert (Hf : f = "yml/policy_a.draft.yml"); [|by rewrite <- Hf].
  change (Sample.glob "yml/*.yml")
    with ["yml/policy_a.yml"; "yml/policy_a.draft.yml"] in Hglob.
  destruct front as [|f1 [|f2 front]].
  - injection Hglob as <- <-. destruct (Hlater "yml/policy_a.draft.yml").
    + left.
    + reflexivity.
  - by injection Hglob as _ <- _.
  - injection Hglob as _ _ Hnil. by destruct front.
Defined.

(** C8: let several files of the directory listing have the same document
    name, and let [input_file] be the last of them.  The load does not fail
    on that account, the store holds the name once, and it maps the name to
    the content of [input_file]: in [endpoint.py] when every file parses, in
    [routes/user_document.py] when the reader raises nothing and the content
    of [input_file] is not [None]. *)
Theorem same_name_last_file_wins {Atom : Type} `{EqDecision Atom}
    (glob : string -> list string) (safe_load : string -> parse_outcome Atom)
    (read_yaml_file : string -> result (pyvalue Atom))
    (front back : list string) (input_file name : string) :
  glob "yml/*.yml" = front ++ input_file :: back ->
  document_name_of input_file = Ok name ->
  (forall later, later ∈ back -> document_name_of later <> Ok name) ->
  (forall parsed,
     (forall f, f ∈ glob "yml/*.yml" -> exists v, safe_load f = Parsed v) ->
     safe_load input_file = Parsed parsed ->
     exists store,
       Endpoint.loaded_documents glob safe_load = Ok store /\
       dict_get name store = Some (transform_data parsed) /\
       NoDup (dict_keys store)) /\
  (forall content,
     (forall f, f ∈ glob "yml/*.yml" ->
        exists c, read_yaml_file f = Ok c) ->
     read_yaml_file input_file = Ok content ->
     UserDocument.is_none content = false ->
     exists store,
       UserDocument.loaded_documents glob read_yaml_file = Ok store /\
       dict_get name store = Some content /\
       NoDup (dict_keys store)).
Proof.
  intros Hglob Hname Hlater. split.
  - intros parsed Hparse Hparsed.
    destruct (endpoint_loads_all_parsed safe_load _ Hparse) as [entries Hall].
    exists (dict_of_items entries). split_and!.
    + by apply endpoint_store_results_all.
    + rewrite Hglob in Hall.
      apply Forall2_app_inv_l in Hall as (efront & erest & _ & Hrest & ->).
      apply Forall2_cons_inv_l in Hrest as (e & eback & Hp & Hback & ->).
      pose proof (endpoint_loads_parsed safe_load _ _ _ Hparsed Hname) as Hp'.
      unfold Endpoint.loads_as in Hp, Hp'. rewrite Hp in Hp'.
      injection Hp' as ->.
      rewrite dict_get_of_items. apply dict_get_rev_last.
      by apply (endpoint_loads_other_names safe_load back).
    + apply dict_of_items_NoDup.
  - intros content Hread Hcontent Hnone.
    destruct (user_document_loads_total read_yaml_file _ Hread)
      as [oentries Hall].
    exists (dict_of_items (omap id oentries)). split_and!.
    + by apply user_document_store_results_all.
    + rewrite Hglob in Hall.
      apply Forall2_app_inv_l in Hall as (ofront & orest & _ & Hrest & ->).
      apply Forall2_cons_inv_l in Hrest as (oe & oback & Hp & Hback & ->).
      pose proof (user_document_loads_content read_yaml_file _ _ _
                    Hcontent Hnone Hname) as Hp'.
      unfold UserDocument.loads_as in Hp, Hp'. rewrite Hp in Hp'.
      injection Hp' as ->.
      rewrite omap_app. change (omap id (Some (name, content) :: oback))
        with ((name, content) :: omap id oback).
      rewrite dict_get_of_items. apply dict_get_rev_last.
      by apply (user_document_loads_other_names read_yaml_file back).
    + apply dict_of_items_NoDup.
Qed.

Lemma same_name_last_file_wins_witness :
  Sample.glob "yml/*.yml" = ["yml/policy_a.yml"; "yml/policy_a.draft.yml"] /\
  document_name_of "yml/policy_a.yml" = Ok "policy_a" /\
  document_name_of "yml/policy_a.draft.yml" = Ok "policy_a" /\
  (exists store,
     Endpoint.loaded_documents Sample.glob Sample.safe_load = Ok store /\
     dict_get "policy_a" store = Some (transform_data Sample.policy_a_draft) /\
     NoDup (dict_keys store)) /\
  (exists store,
     UserDocument.loaded_documents Sample.glob
       (DocumentHandler.read_yaml_file Sample.safe_load) = Ok store /\
     dict_get "policy_a" store = Some (transform_data Sample.policy_a_draft) /\
     NoDup (dict_keys store)).
Proof.
  split; [reflexivity|]. split; [reflexivity|]. split; [reflexivity|].
  destruct (same_name_last_file_wins Sample.glob Sample.safe_load
              (DocumentHandler.read_yaml_file Sample.safe_load)
              ["yml/policy_a.yml"] [] "yml/policy_a.draft.yml" "policy_a")
    as [Hendpoint Huser].
  - reflexivity.
  - reflexivity.
  - intros later Hin. inversion Hin.
  - split.
    + apply (Hendpoint Sample.policy_a_draft); [|reflexivity].
      intros f Hf. change (Sample.glob "yml/*.yml")
        with ["yml/policy_a.yml"; "yml/policy_a.draft.yml"] in Hf.
      apply elem_of_cons in Hf as [->|Hf]; [by eexists|].
      apply elem_of_cons in Hf as [->|Hf]; [by eexists|].
      inversion Hf.
    + apply (Huser (transform_data Sample.policy_a_draft));
        [|reflexivity|reflexivity].
      intros f _. apply document_handler_read_total.
Defined.

(** C9: for a mapping document [d] of the store, however few top-level keys
    it has, the sections handler returns a list: its length is the number of
    the document's keys plus 2, and it holds both "metadata" and
    "document_control"; with fewer than 6 keys both insertions are past the
    end and append. *)
Theorem sections_never_fails {Atom : Type} `{EqDecision Atom}
    (d : string) (loaded_documents : list (string * pyvalue Atom))
    (items : list (pyscalar Atom * pyvalue Atom)) :
  dict_get d loaded_documents = Some (PyDict items) ->
  exists sections,
    get_document_content_sections d loaded_documents = Ok sections /\
    length sections = length (dict_keys items) + 2 /\
    PyStr "metadata" ∈ sections /\
    PyStr "document_control" ∈ sections /\
    (length (dict_keys items) < 6 ->
     sections =
       dict_keys items ++ [PyStr "metadata"; PyStr "document_control"]).
Proof.
  intros Hdoc. unfold get_document_content_sections.
  rewrite (check_document_loaded_present _ _ _ Hdoc). cbn [bind keys].
  eexists. split; [reflexivity|].
  repeat split.
  - rewrite !list_insert_length. lia.
  - rewrite !elem_of_list_insert. auto.
  - rewrite elem_of_list_insert. auto.
  - intros Hshort.
    rewrite (list_insert_past_end 6) by lia.
    rewrite list_insert_past_end by (rewrite length_app; simpl; lia).
    by rewrite <- app_assoc.
Qed.

Lemma sections_never_fails_witness :
  dict_get "policy_a" Sample.draft_store =
    Some (transform_data Sample.policy_a_draft) /\
  get_document_content_sections "policy_a" Sample.draft_store =
    Ok (map PyStr ["title"; "k"; "metadata"; "document_control"]).
Proof.
  assert (Hdoc : dict_get "policy_a" Sample.draft_store =
                   Some (transform_data Sample.policy_a_draft))
    by reflexivity.
  split; [exact Hdoc|].
  destruct (sections_never_fails "policy_a" Sample.draft_store _ Hdoc)
    as (sections & -> & _ & _ & _ & Hshort).
  rewrite Hshort; [reflexivity | simpl; lia].
Defined.

(** C10: the transform is idempotent on every parsed value, whatever the
    nesting of mappings, sequences, strings and other scalars. *)
Theorem transform_data_idempotent {Atom : Type} `{EqDecision Atom}
    (x : pyvalue Atom) :
  transform_data (transform_data x) = transform_data x.
Proof.
  induction x as [s|l IH|items IH] using pyvalue_induction; simpl.
  - by rewrite transform_scalar_idemp.
  - f_equal. rewrite map_map. apply map_ext_in. intros v Hin.
    rewrite Forall_forall in IH. apply IH. by apply list_elem_of_In.
  - f_equal.
    set (f := fun '(key, value) => (transform_scalar key, transform_data value)).
    set (once := dict_of_items (map f items)).
    assert (Hfix : map f once = once).
    { rewrite <- (map_id once) at 2. apply map_ext_in. intros [key' v'] Hin.
      apply list_elem_of_In, elem_of_dict_of_items, list_elem_of_In in Hin.
      apply in_map_iff in Hin as ([key v] & [= <- <-] & Hin).
      rewrite Forall_forall in IH.
      apply list_elem_of_In, IH in Hin. simpl in *.
      by rewrite transform_scalar_idemp, Hin. }
    rewrite Hfix. apply dict_of_items_NoDup_id, dict_of_items_NoDup.
Qed.

(** ** Further properties *)

(** The document-control handler, on a mapping document that holds the three
    source fields, returns the mapping with exactly the keys
    revision_history, prepared_by and reviewed_approved_by, bound to the
    document's values. *)
Theorem document_control_is_three_field_projection
    {Atom : Type} `{EqDecision Atom}
    (d : string) (loaded_documents : list (string * pyvalue Atom))
    (items : list (pyscalar Atom * pyvalue Atom))
    (revision_history prepared_by reviewed_approved_by : pyvalue Atom) :
  dict_get d loaded_documents = Some (PyDict items) ->
  dict_get (PyStr "revision_history") items = Some revision_history ->
  dict_get (PyStr "prepared_by") items = Some prepared_by ->
  dict_get (PyStr "reviewed_approved_by") items = Some reviewed_approved_by ->
  get_document_document_control d loaded_documents =
    Ok (PyDict [ (PyStr "revision_history", revision_history);
                 (PyStr "prepared_by", prepared_by);
                 (PyStr "reviewed_approved_by", reviewed_approved_by) ]).
Proof.
  intros Hdoc Hhistory Hprepared Hreviewed.
  unfold get_document_document_control.
  rewrite (check_document_loaded_present _ _ _ Hdoc). cbn [bind].
  rewrite (getitem_present _ _ _ Hhistory), (getitem_present _ _ _ Hprepared),
    (getitem_present _ _ _ Hreviewed).
  cbn [bind]. reflexivity.
Qed.

Lemma document_control_is_three_field_projection_witness :
  dict_get "policy_a" Sample.store = Some (transform_data Sample.policy_a) /\
  get_document_document_control "policy_a" Sample.store =
    Ok (PyDict [ (PyStr "revision_history", PyList []);
                 (PyStr "prepared_by", PyList []);
                 (PyStr "reviewed_approved_by", PyList []) ]).
Proof.
  split; [reflexivity|].
  eapply document_control_is_three_field_projection; reflexivity.
Defined.

(** [rstrip_newline] removes a run of newline characters at the end of the
    string and nothing else, and what is left does not end with a newline. *)
Theorem rstrip_newline_removes_trailing_run (s : string) :
  (exists n, s = rstrip_newline s +:+ newlines n) /\
  endswith_newline (rstrip_newline s) = false.
Proof.
  split; [|apply rstrip_newline_not_endswith].
  induction s as [|c s [n IH]]; simpl; [by exists 0|].
  destruct (rstrip_newline s) as [|c' r] eqn:Hr.
  - destruct (decide (c = newline)) as [->|Hne].
    + exists (S n). simpl. by rewrite IH at 1.
    + exists n. simpl. by rewrite IH at 1.
  - exists n. simpl. by rewrite IH at 1.
Qed.

(** The document name of a file is the part of its base name before the
    first ".": it holds no ".", and the base name is the document name alone
    or the document name, a "." and a rest. *)
Theorem document_name_is_before_first_dot (input_file name : string) :
  document_name_of input_file = Ok name ->
  (forall c, c ∈ list_ascii_of_string name -> c <> "."%char) /\
  (basename input_file = name \/
   exists rest, basename input_file = name +:+ String "." rest).
Proof.
  unfold document_name_of.
  destruct (split "." (basename input_file)) as [|w ws] eqn:Hs; [discriminate|].
  intros [= ->]. destruct (split_first _ _ _ _ Hs) as [Hw Hrest].
  split; [exact Hw|]. destruct Hrest as [[_ ->]|Hrest]; auto.
Qed.

Lemma document_name_is_before_first_dot_witness :
  document_name_of "yml/policy_a.draft.yml" = Ok "policy_a" /\
  (basename "yml/policy_a.draft.yml" = "policy_a" \/
   exists rest,
     basename "yml/policy_a.draft.yml" = "policy_a" +:+ String "." rest).
Proof.
  split; [reflexivity|].
  apply (document_name_is_before_first_dot "yml/policy_a.draft.yml" "policy_a").
  reflexivity.
Defined.

(** ** The load phase, further *)
Section dict_keys_facts.
Context {K V : Type} `{EqDecision K}.
Implicit Types (k : K) (v : V) (d acc items : list (K * V)).

Lemma elem_of_dict_keys_set k k' v d :
  k ∈ dict_keys (dict_set k' v d) <-> k = k' \/ k ∈ dict_keys d.
Proof.
  rewrite dict_keys_set. destruct (dict_contains k' d) eqn:Hc.
  - apply dict_contains_keys in Hc. split; [auto | by intros [->|]].
  - rewrite elem_of_app, list_elem_of_singleton. tauto.
Qed.

Lemma elem_of_dict_keys_update k acc items :
  k ∈ dict_keys (dict_update acc items) <->
  k ∈ dict_keys acc \/ k ∈ dict_keys items.
Proof.
  unfold dict_update. revert acc.
  induction items as [|[k' v'] items IH]; intros acc; simpl.
  - rewrite elem_of_nil. tauto.
  - rewrite IH, elem_of_dict_keys_set.
    change (dict_keys ((k', v') :: items)) with (k' :: dict_keys items).
    rewrite elem_of_cons. tauto.
Qed.

Lemma elem_of_dict_keys_of_items k items :
  k ∈ dict_keys (dict_of_items items) <-> k ∈ dict_keys items.
Proof.
  unfold dict_of_items. rewrite elem_of_dict_keys_update.
  change (dict_keys (@nil (K * V))) with (@nil K). rewrite elem_of_nil. tauto.
Qed.

Lemma elem_of_dict_keys k d : k ∈ dict_keys d <-> exists v, (k, v) ∈ d.
Proof.
  unfold dict_keys. rewrite list_elem_of_In, in_map_iff. split.
  - intros ([k' v] & <- & Hin). exists v. by apply list_elem_of_In.
  - intros [v Hin]. exists (k, v). split; [done | by apply list_elem_of_In].
Qed.
End dict_keys_facts.

Section endpoint_load_more.
Context {Atom : Type} `{EqDecision Atom}.
Variable safe_load : string -> parse_outcome Atom.

Abbreviation endpoint_loads := (Endpoint.loads_as safe_load).

(** The keys of the entries are the document names of the files. *)
Lemma endpoint_loads_keys paths entries names :
  Forall2 endpoint_loads paths entries ->
  Forall2 (fun f n => document_name_of f = Ok n) paths names ->
  dict_keys entries = names.
Proof.
  intros Hall. revert names.
  induction Hall as [|p e paths entries Hp _ IH]; intros names Hnames.
  - by inversion Hnames.
  - inversion Hnames as [|? n ? names' Hn Hnames']; subst.
    destruct (endpoint_loads_inv _ _ _ Hp) as (_ & _ & Hname & _).
    rewrite Hname in Hn. injection Hn as <-.
    unfold dict_keys in *. simpl. f_equal. by apply IH.
Qed.

Lemma endpoint_loads_key_iff paths entries name :
  Forall2 endpoint_loads paths entries ->
  name ∈ dict_keys entries <->
  exists f, f ∈ paths /\ document_name_of f = Ok name.
Proof.
  unfold dict_keys.
  induction 1 as [|p e paths entries Hp _ IH]; simpl.
  - rewrite elem_of_nil. split; [done|].
    by intros (f & Hf%elem_of_nil & _).
  - destruct (endpoint_loads_inv _ _ _ Hp) as (_ & _ & Hname & _).
    rewrite elem_of_cons, IH. split.
    + intros [->|(f & Hf & Hn)].
      * exists p. split; [left | done].
      * exists f. split; [by right | done].
    + intros (f & [->|Hf]%elem_of_cons & Hn).
      * left. rewrite Hname in Hn. by injection Hn.
      * right. by exists f.
Qed.
End endpoint_load_more.

(** X4: in [endpoint.py] the load stops at the first malformed file: when
    the files listed before [f] parse and [f] is malformed, the load raises
    [yaml.YAMLError] and builds no store, whatever the files listed after
    [f] hold. *)
Theorem endpoint_load_aborts_at_first_malformed
    {Atom : Type} `{EqDecision Atom}
    (glob : string -> list string) (safe_load : string -> parse_outcome Atom)
    (front back : list string) (f : string) :
  glob "yml/*.yml" = front ++ f :: back ->
  (forall g, g ∈ front -> exists v, safe_load g = Parsed v) ->
  safe_load f = Malformed ->
  Endpoint.loaded_documents glob safe_load = Raise YAMLError.
Proof.
  unfold Endpoint.loaded_documents. intros -> Hfront Hf.
  generalize (@nil (string * pyvalue Atom)).
  induction front as [|g front IH]; intros acc; simpl.
  - by rewrite (endpoint_loads_malformed safe_load f Hf).
  - destruct (Hfront g) as [v Hg]; [left|].
    destruct (document_name_of_total g) as [name Hname].
    rewrite (endpoint_loads_parsed safe_load g v name Hg Hname). cbn [bind].
    apply IH. intros g' Hg'. apply Hfront. by right.
Qed.

Lemma endpoint_load_aborts_at_first_malformed_witness :
  Sample.glob_with_malformed "yml/*.yml" =
    ["yml/policy_a.yml"; "yml/broken.yml"] /\
  Sample.safe_load "yml/broken.yml" = Malformed /\
  Endpoint.loaded_documents Sample.glob_with_malformed Sample.safe_load
    = Raise YAMLError.
Proof.
  split; [reflexivity|]. split; [reflexivity|].
  apply (endpoint_load_aborts_at_first_malformed Sample.glob_with_malformed
           Sample.safe_load ["yml/policy_a.yml"] [] "yml/broken.yml").
  - reflexivity.
  - intros g Hg. apply list_elem_of_singleton in Hg as ->. by eexists.
  - reflexivity.
Defined.

(** X5: after a successful load of [endpoint.py] the document list holds no
    name twice, a name is listed exactly when some listed file has it as its
    document name, and when the files' document names are pairwise distinct
    the list is these names in the order of the directory listing. *)
Theorem endpoint_document_list {Atom : Type} `{EqDecision Atom}
    (glob : string -> list string) (safe_load : string -> parse_outcome Atom)
    (store : list (string * pyvalue Atom)) :
  Endpoint.loaded_documents glob safe_load = Ok store ->
  NoDup (get_document_list store) /\
  (forall name,
     name ∈ get_document_list store <->
     exists f, f ∈ glob "yml/*.yml" /\ document_name_of f = Ok name) /\
  (forall names,
     Forall2 (fun f n => document_name_of f = Ok n) (glob "yml/*.yml") names ->
     NoDup names -> get_document_list store = names).
Proof.
  unfold Endpoint.loaded_documents, get_document_list. intros Hload.
  apply endpoint_store_results_inv in Hload as (entries & Hall & ->).
  fold (dict_of_items entries). split; [|split].
  - apply dict_of_items_NoDup.
  - intros name. rewrite elem_of_dict_keys_of_items.
    apply (endpoint_loads_key_iff safe_load _ _ _ Hall).
  - intros names Hnames Hnd.
    pose proof (endpoint_loads_keys safe_load _ _ _ Hall Hnames) as Hkeys.
    rewrite dict_of_items_NoDup_id; [done | by rewrite Hkeys].
Qed.

Lemma endpoint_document_list_witness :
  Endpoint.loaded_documents Sample.glob Sample.safe_load =
    Ok [("policy_a", transform_data Sample.policy_a_draft)] /\
  NoDup (get_document_list
           [("policy_a", transform_data Sample.policy_a_draft)]) /\
  exists f, f ∈ Sample.glob "yml/*.yml" /\ document_name_of f = Ok "policy_a".
Proof.
  assert (Hload : Endpoint.loaded_documents Sample.glob Sample.safe_load =
                    Ok [("policy_a", transform_data Sample.policy_a_draft)])
    by reflexivity.
  split; [exact Hload|].
  destruct (endpoint_document_list Sample.glob Sample.safe_load _ Hload)
    as (Hnd & Hlisted & _).
  split; [exact Hnd|]. apply Hlisted. left.
Defined.

(** X6: a name is in the document list exactly when the document handler
    returns a content for it, and is not in the list exactly when the
    document handler answers with the 404 for that name. *)
Theorem listed_iff_fetchable {Atom : Type} `{EqDecision Atom}
    (d : string) (loaded_documents : list (string * pyvalue Atom)) :
  (d ∈ get_document_list loaded_documents <->
   exists content, get_document_content d loaded_documents = Ok content) /\
  (d ∉ get_document_list loaded_documents <->
   get_document_content d loaded_documents =
     Raise (HTTPException 404 ("Document " +:+ d +:+ ".yml not found"))).
Proof.
  unfold get_document_list, get_document_content, check_document_loaded.
  destruct (dict_contains d loaded_documents) eqn:Hc.
  - pose proof (proj1 (dict_contains_keys _ _) Hc) as Hkey.
    destruct (proj1 (dict_contains_get _ _) Hc) as [content ->]. cbn [bind].
    split; split; try done. intros _. by exists content.
  - assert (Hnot : d ∉ dict_keys loaded_documents).
    { intros Hkey%dict_contains_keys. congruence. }
    cbn [bind]. split; split; try done. by intros [content ?].
Qed.

Section user_document_load_more.
Context {Atom : Type} `{EqDecision Atom}.
Variable read_yaml_file : string -> result (pyvalue Atom).

Abbreviation user_document_loads := (UserDocument.loads_as read_yaml_file).

Lemma user_document_store_results_inv paths acc store :
  UserDocument.store_results
    (map (UserDocument.load_document read_yaml_file) paths) acc = Ok store ->
  exists oentries,
    Forall2 user_document_loads paths oentries /\
    store = dict_update acc (omap id oentries).
Proof.
  revert acc. induction paths as [|p paths IH]; intros acc; simpl.
  - intros [= <-]. exists []. split; [constructor | done].
  - destruct (UserDocument.load_document read_yaml_file p) as [oe|] eqn:Hp;
      cbn [bind]; [|discriminate].
    destruct oe as [[name content]|].
    + intros (oentries & Hall & ->)%IH.
      exists (Some (name, content) :: oentries). split; [by constructor | done].
    + intros (oentries & Hall & ->)%IH.
      exists (None :: oentries). split; [by constructor | done].
Qed.

(** A stored entry comes from a file that was loaded with it. *)
Lemma user_document_loads_entry paths oentries e :
  Forall2 user_document_loads paths oentries ->
  e ∈ omap id oentries ->
  exists f, f ∈ paths /\ user_document_loads f (Some e).
Proof.
  induction 1 as [|p oe paths oentries Hp _ IH]; intros He.
  - by apply elem_of_nil in He.
  - destruct oe as [e'|].
    + change (e ∈ e' :: omap id oentries) in He.
      apply elem_of_cons in He as [->|He].
      * exists p. split; [left | done].
      * destruct (IH He) as (f & Hf & Hload). exists f. split; [by right|done].
    + destruct (IH He) as (f & Hf & Hload). exists f. split; [by right|done].
Qed.

(** The first file whose read raises makes the loop raise the same. *)
Lemma user_document_store_results_raise front f back acc e :
  (forall g, g ∈ front -> exists c, read_yaml_file g = Ok c) ->
  read_yaml_file f = Raise e ->
  UserDocument.store_results
    (map (UserDocument.load_document read_yaml_file) (front ++ f :: back)) acc
    = Raise e.
Proof.
  intros Hfront Hf. revert acc.
  induction front as [|g front IH]; intros acc; simpl.
  - unfold UserDocument.load_document. by rewrite Hf.
  - destruct (Hfront g) as [c Hg]; [left|].
    unfold UserDocument.load_document at 1. rewrite Hg. cbn [bind].
    destruct (UserDocument.is_none c); cbn [bind].
    + apply IH. intros g' Hg'. apply Hfront. by right.
    + destruct (document_name_of_total g) as [name ->]. cbn [bind].
      apply IH. intros g' Hg'. apply Hfront. by right.
Qed.
End user_document_load_more.

(** X7: whatever [read_yaml_file] is, a store built by the loader of
    [routes/user_document.py] holds no name twice and no [None] document, and
    each of its entries is the content read from a listed file whose document
    name is the entry's key. *)
Theorem user_document_store_entries {Atom : Type} `{EqDecision Atom}
    (glob : string -> list string)
    (read_yaml_file : string -> result (pyvalue Atom))
    (store : list (string * pyvalue Atom)) :
  UserDocument.loaded_documents glob read_yaml_file = Ok store ->
  NoDup (get_document_list store) /\
  forall name content,
    dict_get name store = Some content ->
    UserDocument.is_none content = false /\
    exists f,
      f ∈ glob "yml/*.yml" /\ document_name_of f = Ok name /\
      read_yaml_file f = Ok content.
Proof.
  unfold UserDocument.loaded_documents, UserDocument.populate_loaded_documents.
  change ("yml" +:+ "/*.yml") with "yml/*.yml". intros Hload.
  apply user_document_store_results_inv in Hload as (oentries & Hall & ->).
  fold (dict_of_items (omap id oentries)). split.
  - apply dict_of_items_NoDup.
  - intros name content Hget.
    apply dict_get_elem_of, elem_of_dict_of_items in Hget.
    destruct (user_document_loads_entry read_yaml_file _ _ _ Hall Hget)
      as (f & Hf & Hload).
    destruct (user_document_loads_inv _ _ _ Hload) as (Hname & Hread & Hnone).
    split; [done|]. by exists f.
Qed.

Lemma user_document_store_entries_witness :
  UserDocument.loaded_documents Sample.glob_with_malformed
    (DocumentHandler.read_yaml_file Sample.safe_load) =
    Ok [("policy_a", transform_data Sample.policy_a)] /\
  UserDocument.is_none (transform_data Sample.policy_a) = false /\
  exists f,
    f ∈ Sample.glob_with_malformed "yml/*.yml" /\
    document_name_of f = Ok "policy_a".
Proof.
  assert (Hload : UserDocument.loaded_documents Sample.glob_with_malformed
                    (DocumentHandler.read_yaml_file Sample.safe_load) =
                    Ok [("policy_a", transform_data Sample.policy_a)])
    by reflexivity.
  split; [exact Hload|].
  destruct (user_document_store_entries _ _ _ Hload) as [_ Hentries].
  destruct (Hentries "policy_a" (transform_data Sample.policy_a) eq_refl)
    as (Hnone & f & Hf & Hname & _).
  split; [exact Hnone|]. by exists f.
Defined.

(** X8: the loader of [routes/user_document.py] catches nothing: when the
    files listed before [f] are read without an exception and reading [f]
    raises, the load raises the same exception and builds no store. *)
Theorem user_document_reader_exception_escapes
    {Atom : Type} `{EqDecision Atom}
    (glob : string -> list string)
    (read_yaml_file : string -> result (pyvalue Atom))
    (front back : list string) (f : string) (e : exn) :
  glob "yml/*.yml" = front ++ f :: back ->
  (forall g, g ∈ front -> exists c, read_yaml_file g = Ok c) ->
  read_yaml_file f = Raise e ->
  UserDocument.loaded_documents glob read_yaml_file = Raise e.
Proof.
  unfold UserDocument.loaded_documents, UserDocument.populate_loaded_documents.
  change ("yml" +:+ "/*.yml") with "yml/*.yml". intros -> Hfront Hf.
  by apply user_document_store_results_raise.
Qed.

Lemma user_document_reader_exception_escapes_witness :
  Sample.glob_with_malformed "yml/*.yml" =
    ["yml/policy_a.yml"; "yml/broken.yml"] /\
  Endpoint.read_yaml_file Sample.safe_load "yml/broken.yml" = Raise YAMLError /\
  UserDocument.loaded_documents Sample.glob_with_malformed
    (Endpoint.read_yaml_file Sample.safe_load) = Raise YAMLError.
Proof.
  split; [reflexivity|]. split; [reflexivity|].
  apply (user_document_reader_exception_escapes Sample.glob_with_malformed
           (Endpoint.read_yaml_file Sample.safe_load)
           ["yml/policy_a.yml"] [] "yml/broken.yml").
  - reflexivity.
  - intros g Hg. apply list_elem_of_singleton in Hg as ->. by eexists.
  - reflexivity.
Defined.

(** ** The transform, further *)
Section transform_more.
Context {Atom : Type} `{EqDecision Atom}.
Implicit Types (x key : pyscalar Atom) (v : pyvalue Atom).
Implicit Types (items : list (pyscalar Atom * pyvalue Atom)).

Lemma transform_data_dict items :
  transform_data (PyDict items) =
    PyDict (dict_of_items (map transform_item items)).
Proof.
  simpl. do 2 f_equal. apply map_ext. by intros [key value].
Qed.

Lemma dict_keys_transform_items items :
  dict_keys (map transform_item items) =
    map transform_scalar (dict_keys items).
Proof. unfold dict_keys. rewrite !map_map. by apply map_ext. Qed.
End transform_more.

(** X9: the transform always returns a value whose mappings have pairwise
    distinct keys at every depth, and it returns its argument unchanged when
    the argument has such keys and no string of it ends with a newline. *)
Theorem transform_data_fixes_trimmed {Atom : Type} `{EqDecision Atom}
    (v : pyvalue Atom) :
  keys_distinct (transform_data v) = true /\
  (keys_distinct v = true -> no_trailing_newline v = true ->
   transform_data v = v).
Proof.
  induction v as [x|l IH|items IH] using pyvalue_induction.
  - split; [done|]. intros _ Htrim. simpl in *.
    by rewrite transform_scalar_fixed.
  - rewrite Forall_forall in IH. split.
    + simpl. apply forallb_forall. intros v' (v & <- & Hin)%in_map_iff.
      by apply IH, list_elem_of_In.
    + simpl. intros Hkeys Htrim. f_equal.
      rewrite <- (map_id l) at 2. apply map_ext_in. intros v Hin.
      apply IH; [by apply list_elem_of_In | |].
      * by apply (proj1 (forallb_forall _ _) Hkeys).
      * by apply (proj1 (forallb_forall _ _) Htrim).
  - rewrite Forall_forall in IH. rewrite transform_data_dict. split.
    + cbn [keys_distinct]. apply andb_true_intro. split.
      * apply bool_decide_eq_true, dict_of_items_NoDup.
      * apply forallb_forall. intros [key' v'] Hin.
        apply list_elem_of_In, elem_of_dict_of_items, list_elem_of_In in Hin.
        apply in_map_iff in Hin as ([key v] & [= <- <-] & Hin).
        by apply (IH (key, v)), list_elem_of_In.
    + cbn [keys_distinct no_trailing_newline].
      intros [Hnd Hkeys]%andb_true_iff Htrim.
      apply bool_decide_eq_true in Hnd. f_equal.
      assert (Hmap : map transform_item items = items).
      { rewrite <- (map_id items) at 2. apply map_ext_in. intros [key v] Hin.
        pose proof (proj1 (forallb_forall _ _) Hkeys _ Hin) as Hk.
        pose proof (proj1 (forallb_forall _ _) Htrim _ Hin) as Ht.
        simpl in Hk, Ht. apply andb_true_iff in Ht as [Hkey Hv].
        unfold transform_item. simpl.
        rewrite transform_scalar_fixed by done.
        f_equal. apply (IH (key, v)); [by apply list_elem_of_In | done..]. }
      rewrite Hmap. by apply dict_of_items_NoDup_id.
Qed.

Lemma transform_data_fixes_trimmed_witness :
  keys_distinct (transform_data Sample.policy_a) = true /\
  no_trailing_newline (transform_data Sample.policy_a) = true /\
  transform_data (transform_data Sample.policy_a)
    = transform_data Sample.policy_a.
Proof.
  split; [reflexivity|]. split; [reflexivity|].
  apply (transform_data_fixes_trimmed (transform_data Sample.policy_a));
    reflexivity.
Defined.

(** X10: the transform of a mapping is a mapping whose keys are the trimmed
    keys of the original, each once; when several keys trim to the same key,
    that key is bound to the transformed value of the last of them; when the
    trimmed keys are pairwise distinct, the pairs are the transformed pairs
    of the original in their order. *)
Theorem transform_data_mapping {Atom : Type} `{EqDecision Atom}
    (items : list (pyscalar Atom * pyvalue Atom)) :
  exists items',
    transform_data (PyDict items) = PyDict items' /\
    NoDup (dict_keys items') /\
    (forall key,
       key ∈ dict_keys items' <->
       exists key0, key0 ∈ dict_keys items /\ key = transform_scalar key0) /\
    (forall front key0 value0 back,
       items = front ++ (key0, value0) :: back ->
       (forall key1, key1 ∈ dict_keys back ->
                     transform_scalar key1 <> transform_scalar key0) ->
       dict_get (transform_scalar key0) items'
         = Some (transform_data value0)) /\
    (NoDup (map transform_scalar (dict_keys items)) ->
     items' = map transform_item items).
Proof.
  exists (dict_of_items (map transform_item items)).
  split; [apply transform_data_dict|].
  split; [apply dict_of_items_NoDup|]. split; [|split].
  - intros key.
    rewrite elem_of_dict_keys_of_items, dict_keys_transform_items.
    rewrite list_elem_of_In, in_map_iff. split.
    + intros (key0 & <- & Hin). exists key0. by rewrite list_elem_of_In.
    + intros (key0 & Hin & ->). exists key0. by rewrite <- list_elem_of_In.
  - intros front key0 value0 back -> Hback.
    rewrite dict_get_of_items, map_app. simpl.
    apply (dict_get_rev_last (transform_scalar key0)
             (transform_data value0)).
    rewrite dict_keys_transform_items.
    intros (key1 & Heq & Hin)%list_elem_of_In%in_map_iff.
    apply (Hback key1); [by apply list_elem_of_In | done].
  - intros Hnd. apply dict_of_items_NoDup_id.
    by rewrite dict_keys_transform_items.
Qed.

(** X11: trimming does not see trailing newlines: a string followed by any
    number of newline characters is trimmed to the same string, and a string
    is left as it is exactly when it does not end with a newline. *)
Theorem rstrip_newline_ignores_trailing (s : string) (n : nat) :
  rstrip_newline (s +:+ newlines n) = rstrip_newline s /\
  (rstrip_newline s = s <-> endswith_newline s = false).
Proof.
  split.
  - induction s as [|c s IH].
    + change (rstrip_newline (newlines n) = "").
      induction n as [|n IHn]; simpl; [done|].
      by rewrite IHn.
    + change (rstrip_newline (String c (s +:+ newlines n))
              = rstrip_newline (String c s)).
      simpl. by rewrite IH.
  - split; [|apply rstrip_newline_fixed].
    intros <-. apply rstrip_newline_not_endswith.
Qed.

(** ** Strings, further *)

Lemma str_app_nil_r s : s +:+ "" = s.
Proof.
  induction s as [|c s IH]; [done|].
  change (String c (s +:+ "") = String c s). by rewrite IH.
Qed.

Lemma str_app_assoc s t u : (s +:+ t) +:+ u = s +:+ t +:+ u.
Proof.
  induction s as [|c s IH]; [done|].
  change (String c ((s +:+ t) +:+ u) = String c (s +:+ t +:+ u)).
  by rewrite IH.
Qed.

Lemma elem_of_str_app c s t :
  c ∈ list_ascii_of_string (s +:+ t) <->
  c ∈ list_ascii_of_string s \/ c ∈ list_ascii_of_string t.
Proof.
  induction s as [|c' s IH].
  - change ("" +:+ t) with t. simpl. rewrite elem_of_nil. tauto.
  - change (String c' s +:+ t) with (String c' (s +:+ t)). simpl.
    rewrite !elem_of_cons, IH. tauto.
Qed.

Lemma prefix_spec sub s :
  String.prefix sub s = true <-> exists post, s = sub +:+ post.
Proof.
  revert s. induction sub as [|a sub IH]; intros s.
  - split; [intros _; by exists s | intros _; by destruct s].
  - destruct s as [|b s]; simpl.
    + split; [done|]. by intros [post Hpost].
    + destruct (ascii_dec a b) as [->|Hne].
      * rewrite IH. split.
        -- intros [post ->]. by exists post.
        -- intros [post Hpost]. exists post.
           change (String b s = String b (sub +:+ post)) in Hpost.
           by injection Hpost.
      * split; [done|]. intros [post Hpost].
        change (String b s = String a (sub +:+ post)) in Hpost.
        injection Hpost as -> _. done.
Qed.

(** [str_contains] is the substring test. *)
Lemma str_contains_spec sub s :
  str_contains sub s = true <-> exists pre post, s = pre +:+ sub +:+ post.
Proof.
  induction s as [|c s IH].
  - cbn [str_contains]. rewrite orb_false_r, prefix_spec. split.
    + intros [post Hpost]. by exists "", post.
    + intros (pre & post & Hs). exists post.
      destruct pre as [|c' pre]; [done | discriminate Hs].
  - cbn [str_contains]. rewrite orb_true_iff, prefix_spec, IH. split.
    + intros [[post Hpost]|(pre & post & ->)].
      * by exists "", post.
      * by exists (String c pre), post.
    + intros (pre & post & Hs). destruct pre as [|c' pre].
      * left. by exists post.
      * right. exists pre, post.
        change (String c s = String c' (pre +:+ sub +:+ post)) in Hs.
        by injection Hs.
Qed.

(** What [basename] returns: the path is a directory part, empty or ending
    with a slash, followed by the base name, which holds no slash. *)
Lemma basename_from_spec p u :
  (forall c, c ∈ list_ascii_of_string u -> c <> "/"%char) ->
  (forall c, c ∈ list_ascii_of_string (basename_from (u +:+ p) p) ->
             c <> "/"%char) /\
  exists dir,
    u +:+ p = dir +:+ basename_from (u +:+ p) p /\
    (dir = "" \/ exists d, dir = d +:+ "/").
Proof.
  revert u. induction p as [|c p IH]; intros u Hu.
  - simpl. rewrite str_app_nil_r. split; [done|]. exists "". by split; [|left].
  - cbn [basename_from]. destruct (decide (c = "/"%char)) as [->|Hne].
    + destruct (IH "") as [Hbase (dir & Hdir & Hends)].
      { intros c Hc. by apply elem_of_nil in Hc. }
      change ("" +:+ p) with p in Hbase, Hdir. split; [done|].
      exists (u +:+ String "/" dir). split.
      * rewrite str_app_assoc.
        change (String "/" dir +:+ basename_from p p)
          with (String "/" (dir +:+ basename_from p p)).
        by rewrite <- Hdir.
      * right. destruct Hends as [->|[d ->]].
        -- by exists u.
        -- exists (u +:+ String "/" d).
           rewrite str_app_assoc. done.
    + assert (Hsplit : u +:+ String c p = (u +:+ String c "") +:+ p)
        by (by rewrite str_app_assoc).
      rewrite Hsplit. apply IH.
      intros c' [Hc'|Hc']%elem_of_str_app; [by apply Hu|].
      simpl in Hc'. by apply list_elem_of_singleton in Hc' as ->.
Qed.

(** ** The handlers, further *)

Lemma delete_list_insert {A : Type} (i : nat) (x : A) (l : list A) :
  delete (i `min` length l) (list_insert i x l) = l.
Proof.
  revert l. induction i as [|i IH]; intros [|y l]; simpl; try done.
  by rewrite IH.
Qed.

Lemma sublist_list_insert {A : Type} (i : nat) (x : A) (l : list A) :
  sublist l (list_insert i x l).
Proof.
  revert l. induction i as [|i IH]; intros [|y l]; simpl.
  - apply sublist_cons, sublist_nil.
  - by apply sublist_cons.
  - apply sublist_cons, sublist_nil.
  - apply sublist_skip, IH.
Qed.

(** X12: a stored value that is not a mapping (a sequence, a string, [None]
    for an empty file, any other scalar) is returned as it is by the document
    handler, and no other handler returns a value for it: the sections
    handler raises [AttributeError], the metadata and document-control
    handlers raise [TypeError], the section handler raises [TypeError] or the
    404 of a missing section. *)
Theorem non_mapping_document_handlers {Atom : Type} `{EqDecision Atom}
    (d : string) (loaded_documents : list (string * pyvalue Atom))
    (content : pyvalue Atom) :
  dict_get d loaded_documents = Some content ->
  (forall items, content <> PyDict items) ->
  get_document_content d loaded_documents = Ok content /\
  get_document_content_sections d loaded_documents = Raise AttributeError /\
  get_document_content_metadata d loaded_documents = Raise TypeError /\
  get_document_document_control d loaded_documents = Raise TypeError /\
  (forall s,
     get_document_content_section d s loaded_documents = Raise TypeError \/
     get_document_content_section d s loaded_documents =
       Raise (HTTPException 404
                ("Section '" +:+ s +:+ "' doesn't exist in "
                   +:+ d +:+ ".yml"))).
Proof.
  intros Hdoc Hnot.
  unfold get_document_content, get_document_content_sections,
    get_document_content_metadata, get_document_document_control,
    get_document_content_section.
  rewrite (check_document_loaded_present _ _ _ Hdoc). cbn [bind].
  destruct content as [x|l|items]; [| |by destruct (Hnot items)].
  - repeat split. intros s. destruct x as [|t|a]; cbn [contains bind]; auto.
    destruct (str_contains s t); cbn [negb getitem]; auto.
  - repeat split. intros s. cbn [contains bind].
    destruct (existsb _ l); cbn [negb getitem]; auto.
Qed.

Lemma non_mapping_document_handlers_witness :
  dict_get "empty" [("empty", transform_data (PyScalar (@PyNone Z)))] =
    Some (PyScalar PyNone) /\
  get_document_content "empty" [("empty", PyScalar (@PyNone Z))] =
    Ok (PyScalar PyNone) /\
  get_document_content_sections "empty" [("empty", PyScalar (@PyNone Z))] =
    Raise AttributeError.
Proof.
  split; [reflexivity|].
  destruct (non_mapping_document_handlers "empty"
              [("empty", PyScalar (@PyNone Z))] (PyScalar PyNone))
    as (Hdoc & Hsections & _); [reflexivity | done |].
  by split.
Defined.

(** X13: for a stored sequence the section handler raises [TypeError]
    exactly when the requested name is one of the sequence's elements, and
    for a stored string exactly when the requested name is a substring of
    it; in both cases it answers with the 404 of a missing section
    otherwise. *)
Theorem section_of_sequence_or_string {Atom : Type} `{EqDecision Atom}
    (d s : string) (loaded_documents : list (string * pyvalue Atom)) :
  let missing :=
    HTTPException 404
      ("Section '" +:+ s +:+ "' doesn't exist in " +:+ d +:+ ".yml") in
  (forall l,
     dict_get d loaded_documents = Some (PyList l) ->
     (PyScalar (PyStr s) ∈ l ->
      get_document_content_section d s loaded_documents = Raise TypeError) /\
     (PyScalar (PyStr s) ∉ l ->
      get_document_content_section d s loaded_documents = Raise missing)) /\
  (forall t,
     dict_get d loaded_documents = Some (PyScalar (PyStr t)) ->
     ((exists pre post, t = pre +:+ s +:+ post) ->
      get_document_content_section d s loaded_documents = Raise TypeError) /\
     (~ (exists pre post, t = pre +:+ s +:+ post) ->
      get_document_content_section d s loaded_documents = Raise missing)).
Proof.
  intros missing. unfold get_document_content_section. split.
  - intros l Hdoc.
    rewrite (check_document_loaded_present _ _ _ Hdoc). cbn [bind contains].
    set (is_s := fun e : pyvalue Atom =>
                   match e with
                   | PyScalar (PyStr s') => bool_decide (s' = s)
                   | _ => false
                   end).
    assert (Hin : existsb is_s l = true <-> PyScalar (PyStr s) ∈ l).
    { rewrite existsb_exists. split.
      - intros (e & He & Hs). destruct e as [[|s'|]| |]; try done.
        apply bool_decide_eq_true in Hs as ->. by apply list_elem_of_In.
      - intros He. exists (PyScalar (PyStr s)).
        split; [by apply list_elem_of_In|]. simpl. by apply bool_decide_eq_true. }
    destruct (existsb is_s l); cbn [negb getitem]; split; try done.
    + intros Hnot. destruct Hnot. by apply Hin.
    + intros He. apply Hin in He. discriminate He.
  - intros t Hdoc.
    rewrite (check_document_loaded_present _ _ _ Hdoc). cbn [bind contains].
    pose proof (str_contains_spec s t) as Hsub.
    destruct (str_contains s t); cbn [negb getitem]; split; try done.
    + intros Hnot. destruct Hnot. by apply Hsub.
    + intros He. apply Hsub in He. discriminate He.
Qed.

Lemma section_of_sequence_or_string_witness :
  dict_get "notes" [("notes", PyList [Sample.str "a"; Sample.str "b"])] =
    Some (PyList [Sample.str "a"; Sample.str "b"]) /\
  get_document_content_section "notes" "a"
    [("notes", PyList [Sample.str "a"; Sample.str "b"])] = Raise TypeError.
Proof.
  split; [reflexivity|].
  destruct (section_of_sequence_or_string "notes" "a"
              [("notes", PyList [Sample.str "a"; Sample.str "b"])])
    as [Hlist _].
  destruct (Hlist [Sample.str "a"; Sample.str "b"] eq_refl) as [Hin _].
  apply Hin. left.
Defined.

(** X14: the document's own keys can be read back from the sections list:
    they are a sublist of it, in their order, and deleting the element at
    index 10 (or the last one, when the list is shorter) and then the element
    at index 6 (or the last one) gives exactly the keys. *)
Theorem sections_keep_the_keys {Atom : Type} `{EqDecision Atom}
    (d : string) (loaded_documents : list (string * pyvalue Atom))
    (items : list (pyscalar Atom * pyvalue Atom)) :
  dict_get d loaded_documents = Some (PyDict items) ->
  exists sections,
    get_document_content_sections d loaded_documents = Ok sections /\
    sublist (dict_keys items) sections /\
    delete (6 `min` length (dict_keys items))
      (delete (10 `min` S (length (dict_keys items))) sections)
      = dict_keys items.
Proof.
  intros Hdoc. unfold get_document_content_sections.
  rewrite (check_document_loaded_present _ _ _ Hdoc). cbn [bind keys].
  eexists. split; [reflexivity|]. split.
  - etrans; apply sublist_list_insert.
  - rewrite <- (list_insert_length 6 (PyStr "metadata") (dict_keys items)).
    rewrite delete_list_insert. apply delete_list_insert.
Qed.

Lemma sections_keep_the_keys_witness :
  dict_get "policy_a" Sample.store = Some (transform_data Sample.policy_a) /\
  exists sections,
    get_document_content_sections "policy_a" Sample.store = Ok sections /\
    delete 6 (delete 10 sections) =
      map PyStr
        ["type"; "document_no"; "title"; "document_code"; "effective_date";
         "document_rev"; "purpose"; "revision_history"; "prepared_by";
         "reviewed_approved_by"].
Proof.
  assert (Hdoc : dict_get "policy_a" Sample.store =
                   Some (transform_data Sample.policy_a)) by reflexivity.
  split; [exact Hdoc|].
  destruct (sections_keep_the_keys "policy_a" Sample.store _ Hdoc)
    as (sections & Hsections & _ & Hkeys).
  exists sections. split; [exact Hsections|]. exact Hkeys.
Defined.

(** X15: for a mapping document that lacks one of the three document-control
    source fields, the document-control handler returns no value: it raises
    [KeyError] for the first field that is missing, in the order
    revision_history, prepared_by, reviewed_approved_by, which is not a
    404. *)
Theorem document_control_missing_field_key_error
    {Atom : Type} `{EqDecision Atom}
    (d field : string) (loaded_documents : list (string * pyvalue Atom))
    (items : list (pyscalar Atom * pyvalue Atom)) :
  dict_get d loaded_documents = Some (PyDict items) ->
  field ∈ document_control_source_fields ->
  PyStr field ∉ dict_keys items ->
  exists missing,
    find (fun f => negb (dict_contains (PyStr f) items))
      document_control_source_fields = Some missing /\
    get_document_document_control d loaded_documents
      = Raise (KeyError missing) /\
    is_http_404 (get_document_document_control d loaded_documents) = false.
Proof.
  intros Hdoc Hfield Hnot.
  unfold get_document_document_control.
  rewrite (check_document_loaded_present _ _ _ Hdoc). cbn [bind].
  unfold document_control_source_fields in *. cbn [find getitem].
  repeat
    match goal with
    | |- context [dict_contains (PyStr ?f) items] =>
        let Hc := fresh "Hc" in
        destruct (dict_contains (PyStr f) items) eqn:Hc; cbn [negb];
        [ apply dict_contains_get in Hc as [? Hc]; rewrite Hc; cbn [bind]
        | apply dict_contains_false in Hc; rewrite Hc; cbn [bind];
          by eexists ]
    end.
  exfalso.
  repeat (apply elem_of_cons in Hfield as [->|Hfield];
          [match goal with
           | Hget : dict_get (PyStr ?f) items = Some _ |- _ =>
               apply Hnot, dict_contains_keys, dict_contains_get; eauto
           end|]).
  inversion Hfield.
Qed.

Lemma document_control_missing_field_key_error_witness :
  dict_get "policy_a" Sample.draft_store =
    Some (transform_data Sample.policy_a_draft) /\
  get_document_document_control "policy_a" Sample.draft_store =
    Raise (KeyError "revision_history").
Proof.
  split; [reflexivity|].
  destruct (document_control_missing_field_key_error "policy_a" "prepared_by"
              Sample.draft_store
              [ (PyStr "title", Sample.str "Draft");
                (PyStr "k", Sample.str "v") ])
    as (missing & Hfirst & Hraise & _).
  - reflexivity.
  - right. left.
  - intros Hkey%dict_contains_keys. discriminate Hkey.
  - rewrite Hraise. f_equal. f_equal.
    assert (Hm : Some missing = Some "revision_history")
      by (rewrite <- Hfirst; reflexivity).
    by injection Hm.
Defined.

(** X16: every name the sections handler lists for a mapping document is
    "metadata", "document_control" or a key of the document, and every
    string key it lists can be fetched with the section handler, which
    returns the value stored under it; conversely a name for which the
    section handler returns a value is listed. *)
Theorem listed_sections_are_fetchable {Atom : Type} `{EqDecision Atom}
    (d : string) (loaded_documents : list (string * pyvalue Atom))
    (items : list (pyscalar Atom * pyvalue Atom)) :
  dict_get d loaded_documents = Some (PyDict items) ->
  exists sections,
    get_document_content_sections d loaded_documents = Ok sections /\
    (forall key,
       key ∈ sections <->
       key = PyStr "metadata" \/ key = PyStr "document_control" \/
       key ∈ dict_keys items) /\
    (forall s,
       PyStr s ∈ dict_keys items ->
       exists v,
         dict_get (PyStr s) items = Some v /\
         get_document_content_section d s loaded_documents = Ok v) /\
    (forall s v,
       get_document_content_section d s loaded_documents = Ok v ->
       PyStr s ∈ sections).
Proof.
  intros Hdoc.
  unfold get_document_content_sections, get_document_content_section.
  rewrite (check_document_loaded_present _ _ _ Hdoc). cbn [bind keys contains].
  eexists. split; [reflexivity|]. split; [|split].
  - intros key. rewrite !elem_of_list_insert. tauto.
  - intros s Hkey%dict_contains_keys. rewrite Hkey. cbn [negb].
    apply dict_contains_get in Hkey as [v Hv]. exists v.
    split; [done|]. by apply getitem_present.
  - intros s v. destruct (dict_contains (PyStr s) items) eqn:Hc;
      cbn [negb]; [|discriminate].
    intros _. rewrite !elem_of_list_insert. right. right.
    by apply dict_contains_keys.
Qed.

Lemma listed_sections_are_fetchable_witness :
  dict_get "policy_a" Sample.store = Some (transform_data Sample.policy_a) /\
  exists v, get_document_content_section "policy_a" "title" Sample.store = Ok v.
Proof.
  assert (Hdoc : dict_get "policy_a" Sample.store =
                   Some (transform_data Sample.policy_a)) by reflexivity.
  split; [exact Hdoc|].
  destruct (listed_sections_are_fetchable "policy_a" Sample.store _ Hdoc)
    as (sections & _ & _ & Hfetch & _).
  destruct (Hfetch "title") as (v & _ & Hv).
  - apply dict_contains_keys. reflexivity.
  - by exists v.
Defined.

(** X17: the document name of a path is the stretch of the path between its
    last slash and the first "." after it: the path is a directory part
    (empty or ending with a slash), the name, and a rest (empty or starting
    with "."); the name holds no slash and no ".", the rest no slash. *)
Theorem document_name_is_path_segment (input_file name : string) :
  document_name_of input_file = Ok name ->
  (forall c, c ∈ list_ascii_of_string name ->
             c <> "/"%char /\ c <> "."%char) /\
  exists dir rest,
    input_file = dir +:+ name +:+ rest /\
    (dir = "" \/ exists dir', dir = dir' +:+ "/") /\
    (rest = "" \/ exists rest', rest = String "." rest') /\
    (forall c, c ∈ list_ascii_of_string rest -> c <> "/"%char).
Proof.
  unfold document_name_of, basename.
  destruct (basename_from_spec input_file "") as [Hbase (dir & Hdir & Hends)].
  { intros c Hc. by apply elem_of_nil in Hc. }
  change ("" +:+ input_file) with input_file in Hbase, Hdir.
  destruct (split "." (basename_from input_file input_file)) as [|w ws] eqn:Hs;
    [discriminate|].
  intros [= ->]. destruct (split_first _ _ _ _ Hs) as [Hw Hrest].
  assert (Hparts : exists rest,
             basename_from input_file input_file = name +:+ rest /\
             (rest = "" \/ exists rest', rest = String "." rest')).
  { destruct Hrest as [[_ ->]|[rest' ->]].
    - exists "". rewrite str_app_nil_r. by split; [|left].
    - exists (String "." rest'). split; [done|]. right. by exists rest'. }
  destruct Hparts as (rest & Hname & Hrest').
  rewrite Hname in Hbase. split.
  - intros c Hc. split; [|by apply Hw].
    apply Hbase, elem_of_str_app. by left.
  - exists dir, rest. rewrite Hdir at 1. rewrite Hname. split_and!; try done.
    intros c Hc. apply Hbase, elem_of_str_app. by right.
Qed.

Lemma document_name_is_path_segment_witness :
  document_name_of "yml/archive.d/policy_a.draft.yml" = Ok "policy_a" /\
  exists dir rest,
    "yml/archive.d/policy_a.draft.yml" = dir +:+ "policy_a" +:+ rest /\
    (dir = "" \/ exists dir', dir = dir' +:+ "/").
Proof.
  split; [reflexivity|].
  destruct (document_name_is_path_segment
              "yml/archive.d/policy_a.draft.yml" "policy_a" eq_refl)
    as [_ (dir & rest & Hpath & Hdir & _)].
  by exists dir, rest.
Defined.

(** ** The handlers and the declared types *)

Lemma elem_of_has_fields {Atom : Type} `{EqDecision Atom}
    (fields : list string) (items : list (pyscalar Atom * pyvalue Atom))
    (s : string) :
  has_fields fields items -> PyStr s ∈ dict_keys items <-> s ∈ fields.
Proof.
  unfold has_fields. intros ->.
  rewrite !list_elem_of_In, in_map_iff. split.
  - by intros (s' & [= ->] & Hin).
  - intros Hin. by exists s.
Qed.

Lemma NoDup_map_PyStr {Atom : Type} (l : list string) :
  NoDup l -> NoDup (map (@PyStr Atom) l).
Proof.
  induction 1 as [|s l Hs _ IH]; simpl; [apply NoDup_nil_2|].
  apply NoDup_cons_2; [|done].
  intros (s' & [= ->] & Hin)%list_elem_of_In%in_map_iff.
  by apply Hs, list_elem_of_In.
Qed.

(** X18: whenever the metadata handler returns a value, the value is a
    mapping with pairwise distinct keys that are exactly the six keys
    [HeaderFooterItems] declares. *)
Theorem metadata_response_has_declared_fields {Atom : Type} `{EqDecision Atom}
    (d : string) (loaded_documents : list (string * pyvalue Atom))
    (response : pyvalue Atom) :
  get_document_content_metadata d loaded_documents = Ok response ->
  exists metadata,
    response = PyDict metadata /\
    NoDup (dict_keys metadata) /\
    has_fields HeaderFooterItems_fields metadata.
Proof.
  unfold get_document_content_metadata.
  destruct (check_document_loaded d loaded_documents) as [content|];
    cbn [bind]; [|discriminate].
  repeat
    match goal with
    | |- context [getitem content ?f] =>
        destruct (getitem content f); cbn [bind]; [|discriminate]
    end.
  intros [= <-]. eexists. split; [reflexivity|].
  split.
  - apply (NoDup_map_PyStr
             ["document_type"; "document_no"; "effective_date";
              "document_rev"; "title"; "document_code"]).
    apply (bool_decide_unpack _). by vm_compute.
  - unfold has_fields.
    change (map PyStr ["document_type"; "document_no"; "effective_date";
                       "document_rev"; "title"; "document_code"]
              ≡ₚ map (@PyStr Atom) HeaderFooterItems_fields).
    apply Permutation_map, NoDup_Permutation.
    + apply (bool_decide_unpack _). by vm_compute.
    + apply (bool_decide_unpack _). by vm_compute.
    + intros s. unfold HeaderFooterItems_fields.
      rewrite !elem_of_cons, !elem_of_nil. tauto.
Qed.

Lemma metadata_response_has_declared_fields_witness :
  (exists response,
     get_document_content_metadata "policy_a" Sample.store = Ok response) /\
  exists metadata,
    get_document_content_metadata "policy_a" Sample.store
      = Ok (PyDict metadata) /\
    has_fields HeaderFooterItems_fields metadata.
Proof.
  split; [by eexists|].
  destruct (metadata_response_has_declared_fields "policy_a" Sample.store
              _ eq_refl) as (metadata & Hresponse & _ & Hfields).
  exists metadata. split; [|exact Hfields].
  by rewrite <- Hresponse.
Defined.

(** X19: a stored mapping with exactly the keys [DocumentType] declares has
    no key type (the declaration names the field document_type): the metadata
    handler raises [KeyError] for type on it, while the document-control
    handler returns its three fields. *)
Theorem declared_document_type_has_no_type_field
    {Atom : Type} `{EqDecision Atom}
    (d : string) (loaded_documents : list (string * pyvalue Atom))
    (items : list (pyscalar Atom * pyvalue Atom)) :
  dict_get d loaded_documents = Some (PyDict items) ->
  has_fields DocumentType_fields items ->
  get_document_content_metadata d loaded_documents = Raise (KeyError "type") /\
  exists revision_history prepared_by reviewed_approved_by,
    get_document_document_control d loaded_documents =
      Ok (PyDict [ (PyStr "revision_history", revision_history);
                   (PyStr "prepared_by", prepared_by);
                   (PyStr "reviewed_approved_by", reviewed_approved_by) ]).
Proof.
  intros Hdoc Hfields.
  unfold get_document_content_metadata, get_document_document_control.
  rewrite (check_document_loaded_present _ _ _ Hdoc). cbn [bind]. split.
  - rewrite getitem_absent; [done|].
    apply dict_get_None_keys. rewrite (elem_of_has_fields _ _ _ Hfields).
    apply (bool_decide_unpack _). by vm_compute.
  - assert (Hget : forall s, s ∈ DocumentType_fields ->
               exists v, dict_get (PyStr s) items = Some v).
    { intros s Hs. apply dict_contains_get, dict_contains_keys.
      by apply (elem_of_has_fields _ _ _ Hfields). }
    destruct (Hget "revision_history") as [v1 Hv1];
      [apply (bool_decide_unpack _); by vm_compute|].
    destruct (Hget "prepared_by") as [v2 Hv2];
      [apply (bool_decide_unpack _); by vm_compute|].
    destruct (Hget "reviewed_approved_by") as [v3 Hv3];
      [apply (bool_decide_unpack _); by vm_compute|].
    exists v1, v2, v3.
    rewrite (getitem_present _ _ _ Hv1), (getitem_present _ _ _ Hv2),
      (getitem_present _ _ _ Hv3).
    reflexivity.
Qed.

Lemma declared_document_type_has_no_type_field_witness :
  has_fields DocumentType_fields
    (map (fun field => (@PyStr Z field, Sample.str "x"))
       DocumentType_fields) /\
  get_document_content_metadata "declared"
    [("declared",
      PyDict (map (fun field => (@PyStr Z field, Sample.str "x"))
                DocumentType_fields))] = Raise (KeyError "type").
Proof.
  assert (Hfields : has_fields DocumentType_fields
                      (map (fun field => (@PyStr Z field, Sample.str "x"))
                         DocumentType_fields))
    by exact (Permutation_refl (map PyStr DocumentType_fields)).
  split; [exact Hfields|].
  by destruct (declared_document_type_has_no_type_field "declared"
                 [("declared",
                   PyDict (map (fun field => (@PyStr Z field, Sample.str "x"))
                             DocumentType_fields))]
                 _ eq_refl Hfields) as [Hmetadata _].
Defined.

(** ** Skipped files *)

Lemma user_document_loads_no_entry {Atom : Type} `{EqDecision Atom}
    (read_yaml_file : string -> result (pyvalue Atom))
    (paths : list string)
    (oentries : list (option (string * pyvalue Atom))) (name : string) :
  Forall2 (UserDocument.loads_as read_yaml_file) paths oentries ->
  (forall f, f ∈ paths ->
     document_name_of f <> Ok name \/
     exists c, read_yaml_file f = Ok c /\ UserDocument.is_none c = true) ->
  name ∉ dict_keys (omap id oentries).
Proof.
  unfold dict_keys.
  induction 1 as [|p oe paths oentries Hp _ IH]; intros Hskip.
  - by intros Hin%elem_of_nil.
  - assert (Hrest : name ∉ map fst (omap id oentries)).
    { apply IH. intros f Hf. apply Hskip. by right. }
    destruct oe as [e|]; [|exact Hrest].
    change (name ∉ e.1 :: map fst (omap id oentries)).
    apply not_elem_of_cons. split; [|exact Hrest].
    intros ->.
    destruct (user_document_loads_inv _ _ _ Hp) as (Hname & Hread & Hnone).
    destruct (Hskip p) as [Hother|(c & Hc & Hcnone)]; [left | done |].
    rewrite Hread in Hc. injection Hc as <-. congruence.
Qed.

(** X20: in [routes/user_document.py] a skipped file hides nothing: when
    [input_file] is read with a content that is not [None] and every later
    file of the listing either has another document name or is skipped (its
    content is [None]), the store maps the document name of [input_file] to
    that content, provided the reader raises for no listed file. *)
Theorem user_document_skipped_file_keeps_earlier
    {Atom : Type} `{EqDecision Atom}
    (glob : string -> list string)
    (read_yaml_file : string -> result (pyvalue Atom))
    (front back : list string) (input_file name : string)
    (content : pyvalue Atom) :
  glob "yml/*.yml" = front ++ input_file :: back ->
  (forall f, f ∈ glob "yml/*.yml" -> exists c, read_yaml_file f = Ok c) ->
  document_name_of input_file = Ok name ->
  read_yaml_file input_file = Ok content ->
  UserDocument.is_none content = false ->
  (forall later, later ∈ back ->
     document_name_of later <> Ok name \/
     exists c, read_yaml_file later = Ok c /\ UserDocument.is_none c = true) ->
  exists store,
    UserDocument.loaded_documents glob read_yaml_file = Ok store /\
    dict_get name store = Some content.
Proof.
  intros Hglob Hread Hname Hcontent Hnone Hlater.
  destruct (user_document_loads_total read_yaml_file _ Hread)
    as [oentries Hall].
  exists (dict_of_items (omap id oentries)). split.
  - by apply user_document_store_results_all.
  - rewrite Hglob in Hall.
    apply Forall2_app_inv_l in Hall as (ofront & orest & _ & Hrest & ->).
    apply Forall2_cons_inv_l in Hrest as (oe & oback & Hp & Hback & ->).
    pose proof (user_document_loads_content read_yaml_file _ _ _
                  Hcontent Hnone Hname) as Hp'.
    unfold UserDocument.loads_as in Hp, Hp'. rewrite Hp in Hp'.
    injection Hp' as ->.
    rewrite omap_app. change (omap id (Some (name, content) :: oback))
      with ((name, content) :: omap id oback).
    rewrite dict_get_of_items. apply dict_get_rev_last.
    by apply (user_document_loads_no_entry read_yaml_file back).
Qed.

Lemma user_document_skipped_file_keeps_earlier_witness :
  Sample.glob_with_malformed "yml/*.yml" =
    ["yml/policy_a.yml"; "yml/broken.yml"] /\
  exists store,
    UserDocument.loaded_documents Sample.glob_with_malformed
      (DocumentHandler.read_yaml_file Sample.safe_load) = Ok store /\
    dict_get "policy_a" store = Some (transform_data Sample.policy_a).
Proof.
  split; [reflexivity|].
  apply (user_document_skipped_file_keeps_earlier Sample.glob_with_malformed
           (DocumentHandler.read_yaml_file Sample.safe_load)
           [] ["yml/broken.yml"] "yml/policy_a.yml" "policy_a").
  - reflexivity.
  - intros f _. apply document_handler_read_total.
  - reflexivity.
  - reflexivity.
  - reflexivity.
  - intros later Hin. apply list_elem_of_singleton in Hin as ->.
    right. by eexists.
Defined.
